(** * LearnDemo: skill-gap analyzer and tutoring session

    A shallow embedding of [analyzer.py], [learning.py] and [teacher.py].
    The hosted language model, the web search, the clock, the console and
    the file [history.json] are the program's collaborators: they are kept
    explicit, as an interface of the outside world and as fields of the
    machine state the methods run in. So are the Unicode tables of the
    interpreter, which decide what trimming, lower-casing and [int] do to
    text outside ASCII. *)

From Stdlib Require Import String Ascii List ZArith Lia Bool.
From stdpp Require Import base option list strings gmap pretty.

Set Warnings "-register-all".
Open Scope string_scope.
Open Scope list_scope.

(** ** Python strings

    A [str] is kept as its UTF-8 bytes. What [str.strip], [str.lower] and
    [int] do is written out for ASCII text. For text with other characters
    it is decided by the Unicode tables of the interpreter (which
    characters are blanks, which have a lower case, which are decimal
    digits): these are an interface of the interpreter here. *)
Module PyStr.

Definition nl : string := String (ascii_of_nat 10) EmptyString.
Definition dq : string := String (ascii_of_nat 34) EmptyString.
Definition bs : string := String (ascii_of_nat 92) EmptyString.

(** What the interpreter does with a [str] that has a character outside
    ASCII. *)
Class Unicode : Type := {
  (* s.strip() *)
  unicode_strip : string -> string;
  (* s.lower() *)
  unicode_lower : string -> string;
  (* int(s), None for ValueError *)
  unicode_int : string -> option Z
}.

(** [s.isascii()] *)
Fixpoint isascii (s : string) : bool :=
  match s with
  | EmptyString => true
  | String c s' => (nat_of_ascii c <? 128)%nat && isascii s'
  end.

(** [str.isspace] on one ASCII character: TAB..CR, FS..US and the blank. *)
Definition isspace (c : ascii) : bool :=
  let n := nat_of_ascii c in
  ((9 <=? n)%nat && (n <=? 13)%nat) || ((28 <=? n)%nat && (n <=? 32)%nat).

Fixpoint lstrip (s : string) : string :=
  match s with
  | EmptyString => EmptyString
  | String c s' => if isspace c then lstrip s' else s
  end.

Definition rstrip (s : string) : string :=
  String.rev (lstrip (String.rev s)).

(** [s.strip()] for ASCII [s]. *)
Definition ascii_strip (s : string) : string := rstrip (lstrip s).

(** [s.strip()] *)
Definition strip {U : Unicode} (s : string) : string :=
  if isascii s then ascii_strip s else unicode_strip s.

Definition lower_char (c : ascii) : ascii :=
  let n := nat_of_ascii c in
  if ((65 <=? n)%nat && (n <=? 90)%nat)%bool then ascii_of_nat (n + 32) else c.

(** [s.lower()] for ASCII [s]. *)
Fixpoint ascii_lower (s : string) : string :=
  match s with
  | EmptyString => EmptyString
  | String c s' => String (lower_char c) (ascii_lower s')
  end.

(** [s.lower()] *)
Definition lower {U : Unicode} (s : string) : string :=
  if isascii s then ascii_lower s else unicode_lower s.

(** A byte that continues the character begun before it. *)
Definition continues (c : ascii) : bool :=
  let n := nat_of_ascii c in ((128 <=? n)%nat && (n <? 192)%nat).

(** [len(s)]: the number of characters. *)
Fixpoint len (s : string) : nat :=
  match s with
  | EmptyString => 0
  | String c s' => if continues c then len s' else S (len s')
  end.

(** [s[:n]]: the first [n] characters, each with all its bytes. *)
Fixpoint slice_to (n : nat) (s : string) : string :=
  match s with
  | EmptyString => EmptyString
  | String c s' =>
      if continues c then String c (slice_to n s')
      else match n with
           | O => EmptyString
           | S n' => String c (slice_to n' s')
           end
  end.

Arguments slice_to : simpl never.

(** [sep.join(parts)] *)
Fixpoint join (sep : string) (parts : list string) : string :=
  match parts with
  | [] => EmptyString
  | [p] => p
  | p :: rest => p +:+ sep +:+ join sep rest
  end.

(** [str(n)] for a non-negative integer. *)
Definition str_of_nat (n : nat) : string := pretty n.

(** The f-string rendering of an attribute that may hold [None]. *)
Definition fmt_opt (o : option string) : string :=
  match o with Some s => s | None => "None" end.

End PyStr.

(** ** Results and exceptions *)

Inductive exn : Type :=
  | RuntimeError (msg : string)
  | ValueError
  | KeyError (key : string)
  | IndexError
  | AttributeError (name : string)
  | EOFError
  | ExternalError (what : string).

Inductive res (A : Type) : Type :=
  | Ok (a : A)
  | Raise (e : exn).
Arguments Ok {A} a.
Arguments Raise {A} e.

(** A method body: it reads and writes the machine state [St] and either
    returns or raises. Whatever was written before a raise stays written. *)
Definition M (St A : Type) : Type := St -> res A * St.

Definition ret {St A} (a : A) : M St A := fun s => (Ok a, s).

Definition bind {St A B} (m : M St A) (k : A -> M St B) : M St B :=
  fun s => match m s with
           | (Ok a, s') => k a s'
           | (Raise e, s') => (Raise e, s')
           end.

Definition raise {St A} (e : exn) : M St A := fun s => (Raise e, s).

Definition get {St} : M St St := fun s => (Ok s, s).
Definition modify {St} (f : St -> St) : M St unit := fun s => (Ok tt, f s).

(** [try: body except Exception: handler] *)
Definition try_except {St A} (body : M St A) (handler : exn -> M St A) : M St A :=
  fun s => match body s with
           | (Ok a, s') => (Ok a, s')
           | (Raise e, s') => handler e s'
           end.

Declare Scope py_scope.
Delimit Scope py_scope with py.
Notation "x <- c ;; k" := (bind c (fun x => k))
  (at level 100, c at next level, right associativity) : py_scope.
Notation "c ;;; k" := (bind c (fun _ => k))
  (at level 100, right associativity) : py_scope.
Open Scope py_scope.

(** Lift an optional value: [None] raises. *)
Definition need {St A} (e : exn) (o : option A) : M St A :=
  match o with Some a => ret a | None => raise e end.

(** ** [json.dumps(obj, indent=k)]

    The encoder of the standard library, for the values this program
    serializes: strings, lists and dicts with string keys. *)
Module Json.
Import PyStr.

Inductive json : Type :=
  | JStr (s : string)
  | JArr (items : list json)
  | JObj (fields : list (string * json)).

Definition hex_digit (n : nat) : ascii :=
  if (n <? 10)%nat then ascii_of_nat (48 + n) else ascii_of_nat (87 + n).

(** One ASCII character of a string literal ([ensure_ascii] is on). *)
Definition escape_char (c : ascii) : string :=
  let n := nat_of_ascii c in
  if (n =? 34)%nat then bs +:+ dq
  else if (n =? 92)%nat then bs +:+ bs
  else if (n =? 10)%nat then bs +:+ "n"
  else if (n =? 13)%nat then bs +:+ "r"
  else if (n =? 9)%nat then bs +:+ "t"
  else if (n =? 8)%nat then bs +:+ "b"
  else if (n =? 12)%nat then bs +:+ "f"
  else if ((n <? 32)%nat || (n =? 127)%nat)%bool
    then bs +:+ "u00" +:+ String (hex_digit (n / 16)) (String (hex_digit (n mod 16)) "")
  else String c "".

(** [\uXXXX] for a 16-bit unit. *)
Definition escape_unit (u : N) : string :=
  let digit (k : N) := hex_digit (N.to_nat ((u / k) mod 16)%N) in
  bs +:+ "u"
  +:+ String (digit 4096%N) (String (digit 256%N) (String (digit 16%N) (String (digit 1%N) ""))).

(** A character outside ASCII, by its code point: one unit, or a
    surrogate pair above [0xFFFF]. *)
Definition escape_point (cp : N) : string :=
  if (cp <? 65536)%N then escape_unit cp
  else
    let v := (cp - 65536)%N in
    escape_unit (55296 + v / 1024)%N +:+ escape_unit (56320 + v mod 1024)%N.

(** The six payload bits of a continuation byte. *)
Definition payload (c : ascii) : N := (N_of_ascii c mod 64)%N.

(** The body of a string literal. The bytes of a character outside ASCII
    are decoded to its code point; a [str] has no cut-off character. *)
Fixpoint escape (s : string) : string :=
  match s with
  | EmptyString => EmptyString
  | String c s1 =>
      let n := N_of_ascii c in
      if (n <? 128)%N then escape_char c +:+ escape s1
      else
        match s1 with
        | EmptyString => EmptyString
        | String c2 s2 =>
            if (n <? 224)%N
            then escape_point ((n mod 32) * 64 + payload c2)%N +:+ escape s2
            else
              match s2 with
              | EmptyString => EmptyString
              | String c3 s3 =>
                  if (n <? 240)%N
                  then escape_point (((n mod 16) * 64 + payload c2) * 64 + payload c3)%N
                       +:+ escape s3
                  else
                    match s3 with
                    | EmptyString => EmptyString
                    | String c4 s4 =>
                        escape_point
                          ((((n mod 8) * 64 + payload c2) * 64 + payload c3) * 64
                           + payload c4)%N
                        +:+ escape s4
                    end
              end
        end
  end.

Definition encode_str (s : string) : string := dq +:+ escape s +:+ dq.

Fixpoint spaces (n : nat) : string :=
  match n with O => "" | S n' => String " " (spaces n') end.

Definition newline_indent (indent level : nat) : string :=
  nl +:+ spaces (indent * level).

Fixpoint dumps_at (indent level : nat) (v : json) : string :=
  match v with
  | JStr s => encode_str s
  | JArr [] => "[]"
  | JArr items =>
      "[" +:+ newline_indent indent (S level)
      +:+ join ("," +:+ newline_indent indent (S level))
               (map (dumps_at indent (S level)) items)
      +:+ newline_indent indent level +:+ "]"
  | JObj [] => "{}"
  | JObj fields =>
      "{" +:+ newline_indent indent (S level)
      +:+ join ("," +:+ newline_indent indent (S level))
               (map (fun kv => encode_str (fst kv) +:+ ": "
                               +:+ dumps_at indent (S level) (snd kv)) fields)
      +:+ newline_indent indent level +:+ "}"
  end.

Definition dumps (v : json) (indent : nat) : string := dumps_at indent 0 v.

End Json.

(** ** Dicts with string values, in insertion order *)

Definition dict : Type := list (string * string).

Fixpoint dict_get (d : dict) (k : string) : option string :=
  match d with
  | [] => None
  | (k', v) :: d' => if String.eqb k k' then Some v else dict_get d' k
  end.

Definition dict_keys (d : dict) : list string := map fst d.

Definition dict_to_json (d : dict) : Json.json :=
  Json.JObj (map (fun kv => (fst kv, Json.JStr (snd kv))) d).

(** [d[k]] *)
Definition getitem {St} (d : dict) (k : string) : M St string :=
  need (KeyError k) (dict_get d k).

(** ** Chat messages (langchain) *)

Inductive message : Type :=
  | HumanMessage (content : string)
  | AIMessage (content : string)
  | SystemMessage (content : string)
  | OtherMessage (role : option string) (content : string).

Definition content (m : message) : string :=
  match m with
  | HumanMessage c | AIMessage c | SystemMessage c | OtherMessage _ c => c
  end.

(** ** Proficiency levels *)

(** Modelled from the spec: the module [enums] (class [Proficiency]) is
    imported by [analyzer.py] and [teacher.py] and is not part of the
    sources; section 3 of the design gives the five ordered levels, and the
    value of a level is its lower-case name. *)
Inductive Proficiency : Type :=
  | PNone | Beginner | Intermediate | Advanced | Expert.

Definition value (p : Proficiency) : string :=
  match p with
  | PNone => "none" | Beginner => "beginner" | Intermediate => "intermediate"
  | Advanced => "advanced" | Expert => "expert"
  end.

(** ** analyzer.py *)
Module Analyzer.
Import PyStr.

(** The pydantic models the completion service fills in. *)
Module Skill.
Record t : Type := { skill_name : string; proficiency_level : string }.
End Skill.

Module Requirements.
Record t : Type := { skills : list Skill.t }.
End Requirements.

Module SkillGap.
Record t : Type :=
  { skill_name : string; current_level : string; required_level : string }.
End SkillGap.

Module Gaps.
Record t : Type := { skills : list SkillGap.t }.
End Gaps.

(** The dict [analyze_cv] returns. *)
Module UserProfile.
Record t : Type :=
  { user_name : string; skills : list dict; profile_summary : string }.
End UserProfile.

(** The dict [get_job_details] returns. *)
Module JobDetails.
Record t : Type :=
  { job_role : string; company_name : string; job_location : string;
    description_summary : string }.
End JobDetails.

(** The dict [generate_report] returns. *)
Module Report.
Record t : Type :=
  { timestamp : string;
    user_name : string;
    user_skills : list dict;
    user_profile_summary : string;
    job_role : string;
    job_location : string;
    company_name : string;
    description_summary : string;
    required_skills : list dict;
    skill_gaps : list dict }.
End Report.

(** What the analyzer asks of the outside world [W]:
    [self.llm.with_structured_output(S).invoke(messages)] for the two
    schemas used here, and the wall clock. *)
Class Completion (W : Type) : Type := {
  invoke_Requirements : list message -> M W Requirements.t;
  invoke_Gaps : list message -> M W Gaps.t;
  (* datetime.now().strftime(...): reading the clock cannot fail *)
  strftime_now : W -> string * W
}.

Definition dumps_dicts (ds : list dict) (indent : nat) : string :=
  Json.dumps (Json.JArr (map dict_to_json ds)) indent.

Section Methods.
Context {U : PyStr.Unicode} {W : Type} `{Completion W}.

Definition now : M W string :=
  fun w => let '(t, w') := strftime_now w in (Ok t, w').

Definition skill_dict (skill : Skill.t) : dict :=
  [ ("skill_name", lower (strip (Skill.skill_name skill)));
    ("proficiency_level", lower (strip (Skill.proficiency_level skill))) ].

Definition requirements_prompt (description : string) : string :=
  "Based on the following job description:" +:+ nl +:+ description +:+ nl +:+ nl
  +:+ "Identify the required skills and their required proficiency levels. "
  +:+ "For each skill, provide:" +:+ nl
  +:+ "- skill_name: The name of the skill" +:+ nl
  +:+ "- proficiency_level: beginner/intermediate/advanced/expert" +:+ nl.

Definition get_requirements (description : string) : M W (list dict) :=
  let message := HumanMessage (requirements_prompt description) in
  response <- invoke_Requirements [message] ;;
  let skills_dicts :=
    fold_left (fun skills_dicts skill => skills_dicts ++ [skill_dict skill])
              (Requirements.skills response) [] in
  ret skills_dicts.

Definition gap_dict (gap : SkillGap.t) : dict :=
  [ ("skill_name", lower (strip (SkillGap.skill_name gap)));
    ("current_level", lower (strip (SkillGap.current_level gap)));
    ("required_level", lower (strip (SkillGap.required_level gap))) ].

Definition gaps_prompt (user_profile : UserProfile.t)
    (required_skills : list dict) : string :=
  "User's current profile: "
  +:+ dumps_dicts (UserProfile.skills user_profile) 2 +:+ nl
  +:+ "Required skills for the job: " +:+ dumps_dicts required_skills 2
  +:+ nl +:+ nl
  +:+ "Compare the user's current skills with the job requirements and identify skill gaps. "
  +:+ "For each gap, provide:" +:+ nl
  +:+ "- skill_name: The name of the skill" +:+ nl
  +:+ "- current_level: User's current proficiency beginner/intermediate/advanced/expert" +:+ nl
  +:+ "- required_level: Required proficiency level beginner/intermediate/advanced/expert" +:+ nl.

Definition get_gaps (user_profile : UserProfile.t)
    (required_skills : list dict) : M W (list dict) :=
  let message := HumanMessage (gaps_prompt user_profile required_skills) in
  response <- invoke_Gaps [message] ;;
  let gaps_dicts :=
    fold_left (fun gaps_dicts gap => gaps_dicts ++ [gap_dict gap])
              (Gaps.skills response) [] in
  ret gaps_dicts.

Definition generate_report (user_profile : UserProfile.t)
    (job_details : JobDetails.t) (skill_requirements : list dict)
    (skill_gaps : list dict) : M W Report.t :=
  timestamp <- now ;;
  ret {| Report.timestamp := timestamp;
         Report.user_name := UserProfile.user_name user_profile;
         Report.user_skills := UserProfile.skills user_profile;
         Report.user_profile_summary := UserProfile.profile_summary user_profile;
         Report.job_role := JobDetails.job_role job_details;
         Report.job_location := JobDetails.job_location job_details;
         Report.company_name := JobDetails.company_name job_details;
         Report.description_summary := JobDetails.description_summary job_details;
         Report.required_skills := skill_requirements;
         Report.skill_gaps := skill_gaps |}.

End Methods.

End Analyzer.

(** ** The gap computation of the design

    Sections 3, 4.1 and 4.3 of the design describe a gap computation done
    by comparison of levels. It is written here from those words, next to
    [Analyzer.get_gaps], so that the two can be compared on an input. *)
Module Design.

Definition ordinal (p : Proficiency) : Z :=
  match p with
  | PNone => 0 | Beginner => 1 | Intermediate => 2 | Advanced => 3 | Expert => 4
  end.

(** [ProficiencyScale.parse]: the five recognized names, after trimming and
    lower-casing, and nothing else. *)
Definition parse {U : PyStr.Unicode} (raw : string) : option Proficiency :=
  let s := PyStr.lower (PyStr.strip raw) in
  if String.eqb s "none" then Some PNone
  else if String.eqb s "beginner" then Some Beginner
  else if String.eqb s "intermediate" then Some Intermediate
  else if String.eqb s "advanced" then Some Advanced
  else if String.eqb s "expert" then Some Expert
  else None.

(** [distance(a, b) = ordinal(b) - ordinal(a)] *)
Definition distance (a b : Proficiency) : Z := ordinal b - ordinal a.

Inductive Severity : Type := Low | Medium | High | Critical.

(** [severityFor(current, required)]; no severity when the distance is not
    positive. *)
Definition severityFor (current required : Proficiency) : option Severity :=
  match distance current required with
  | 1%Z => Some Low | 2%Z => Some Medium | 3%Z => Some High | 4%Z => Some Critical
  | _ => None
  end.

Record SkillGap : Type := {
  skill_name : string;
  current_level : Proficiency;
  required_level : Proficiency;
  severity : Severity
}.

(** The level a dict carries under [key]; unreadable or absent counts as
    the level none. *)
Definition level_of {U : PyStr.Unicode} (d : dict) (key : string) : Proficiency :=
  match dict_get d key with
  | Some raw => match parse raw with Some p => p | None => PNone end
  | None => PNone
  end.

Definition name_of (d : dict) : string :=
  match dict_get d "skill_name" with Some n => n | None => "" end.

(** The lookup from name to level built from the candidate list: a later
    record for a name replaces an earlier one. *)
Fixpoint lookup_level {U : PyStr.Unicode} (candidate : list dict) (name : string)
    : option Proficiency :=
  match candidate with
  | [] => None
  | d :: rest =>
      match lookup_level rest name with
      | Some p => Some p
      | None =>
          if String.eqb (name_of d) name
          then Some (level_of d "proficiency_level") else None
      end
  end.

(** [lookup.get(name, None)] *)
Definition candidate_level {U : PyStr.Unicode} (candidate : list dict) (name : string)
    : Proficiency :=
  match lookup_level candidate name with Some p => p | None => PNone end.

(** [computeGaps(candidateSkills, requiredSkills)]: for each required skill
    in input order, a gap when [current < required], nothing otherwise. *)
Fixpoint computeGaps {U : PyStr.Unicode} (candidateSkills requiredSkills : list dict)
    : list SkillGap :=
  match requiredSkills with
  | [] => []
  | req :: rest =>
      let current := candidate_level candidateSkills (name_of req) in
      let required := level_of req "proficiency_level" in
      match severityFor current required with
      | Some sev =>
          {| skill_name := name_of req; current_level := current;
             required_level := required; severity := sev |}
          :: computeGaps candidateSkills rest
      | None => computeGaps candidateSkills rest
      end
  end.

End Design.

(** ** learning.py *)
Module Learning.
Import PyStr.

(** Everything the platform does to the outside, in order. *)
Inductive event : Type :=
  | Print (text : string)
  | Input (prompt line : string)
  | HttpGet (url q : string)
  | LLMCall (messages : list message).

(** The attributes of a [LearningPlatform]; of [self.report] only the
    list under ['skill_gaps'] is ever read. *)
Record Platform : Type := {
  report_skill_gaps : list dict;
  turn_count : nat;
  current_skill : option string
}.

Record State (W : Type) : Type := {
  world : W;
  trace : list event;
  self : Platform
}.
Arguments world {W} _.
Arguments trace {W} _.
Arguments self {W} _.

(** What the platform asks of the outside world. *)
Class Tutor (W : Type) : Type := {
  (* requests.get(url, params={"q": q}, timeout=10, headers=...).text *)
  requests_get_text : string -> string -> M W string;
  (* self.llm(messages).content *)
  llm_content : list message -> M W string
}.

Definition no_context : string := "No external context available right now.".

(** The digits of [int(s)] on ASCII text: decimal digits with single
    underscores between them. *)
Fixpoint digits_value (acc : Z) (after_digit : bool) (s : string) : option Z :=
  match s with
  | EmptyString => if after_digit then Some acc else None
  | String c s' =>
      match Ascii.is_nat c with
      | Some d => digits_value (10 * acc + Z.of_nat d) true s'
      | None =>
          if (Ascii.eqb c "_" && after_digit)%bool
          then (match s' with
                | EmptyString => None
                | _ => digits_value acc false s'
                end)
          else None
      end
  end.

(** [int(s)] for ASCII [s]: blanks around, a sign, the digits. *)
Definition ascii_int (s : string) : option Z :=
  match ascii_strip s with
  | String "+" r => digits_value 0 false r
  | String "-" r => Z.opp <$> digits_value 0 false r
  | t => digits_value 0 false t
  end.

(** [int(s)], [None] for [ValueError]. *)
Definition parse_int {U : Unicode} (s : string) : option Z :=
  if isascii s then ascii_int s else unicode_int s.

Section Methods.
Context {U : PyStr.Unicode} {W : Type} `{Tutor W}.

Definition emit (e : event) : M (State W) unit :=
  modify (fun s => {| world := world s; trace := trace s ++ [e]; self := self s |}).

(** Run a call on the outside world and record it. *)
Definition outside {A} (e : event) (call : M W A) : M (State W) A :=
  fun s =>
    let '(r, w') := call (world s) in
    (r, {| world := w'; trace := trace s ++ [e]; self := self s |}).

(** [print(text)] *)
Definition print (text : string) : M (State W) unit := emit (Print (text +:+ nl)).

Definition set_current_skill (v : string) : M (State W) unit :=
  modify (fun s => {| world := world s; trace := trace s;
                      self := {| report_skill_gaps := report_skill_gaps (self s);
                                 turn_count := turn_count (self s);
                                 current_skill := Some v |} |}).

Definition set_turn_count (n : nat) : M (State W) unit :=
  modify (fun s => {| world := world s; trace := trace s;
                      self := {| report_skill_gaps := report_skill_gaps (self s);
                                 turn_count := n;
                                 current_skill := current_skill (self s) |} |}).

Definition gap_line (i : nat) (gap : dict) : M (State W) string :=
  skill_name <- getitem gap "skill_name" ;;
  current_level <- getitem gap "current_level" ;;
  required_level <- getitem gap "required_level" ;;
  gap_severity <- getitem gap "gap_severity" ;;
  ret (str_of_nat i +:+ ". " +:+ skill_name +:+ " "
       +:+ "(You: " +:+ current_level +:+ " → Required: " +:+ required_level +:+ ", "
       +:+ "Severity: " +:+ gap_severity +:+ ")").

Fixpoint print_gaps (i : nat) (gaps : list dict) : M (State W) unit :=
  match gaps with
  | [] => ret tt
  | gap :: rest =>
      line <- gap_line i gap ;;
      print line ;;;
      print_gaps (S i) rest
  end.

(** [gaps[idx]['skill_name']] *)
Definition gap_name_at (gaps : list dict) (idx : nat) : M (State W) string :=
  gap <- need IndexError (nth_error gaps idx) ;;
  getitem gap "skill_name".

(** [input(prompt)]: the next line of the console, [EOFError] when there
    is none. *)
Definition input (prompt : string) (inputs : list string)
    : M (State W) (string * list string) :=
  match inputs with
  | [] => emit (Print prompt) ;;; raise EOFError
  | line :: rest => emit (Input prompt line) ;;; ret (line, rest)
  end.

(** Ask user which gap to focus on. Returns the console lines left. *)
Definition asks_what_to_learn (inputs : list string) : M (State W) (list string) :=
  s <- get ;;
  let gaps := report_skill_gaps (self s) in
  print (nl +:+ "Your skill gaps are:") ;;;
  print_gaps 1 gaps ;;;
  typed <- input (nl +:+ "Which skill would you like to work on first? (enter number): ")
                 inputs ;;
  let choice := fst typed in
  (match parse_int choice with
   | Some n =>
       let idx := (n - 1)%Z in
       if ((idx <? 0)%Z || (Z.of_nat (length gaps) <=? idx)%Z)%bool
       then
         print "Invalid choice, defaulting to the first gap." ;;;
         name <- gap_name_at gaps 0 ;;
         set_current_skill name
       else
         name <- gap_name_at gaps (Z.to_nat idx) ;;
         set_current_skill name
   | None =>
       print "Invalid choice, defaulting to the first gap." ;;;
       name <- gap_name_at gaps 0 ;;
       set_current_skill name
   end) ;;;
  s <- get ;;
  print (nl +:+ "👉 Great! We'll focus on: " +:+ fmt_opt (current_skill (self s)) +:+ nl) ;;;
  ret (snd typed).

(** Fetch recent info from DuckDuckGo as context. *)
Definition fetch_web_context (query : string) : M (State W) string :=
  try_except
    (text <- outside (HttpGet "https://duckduckgo.com/html/" query)
                     (requests_get_text "https://duckduckgo.com/html/" query) ;;
     ret (slice_to 1500 text))
    (fun _ => ret no_context).

Definition sys_prompt (skill context : string) : string :=
  "You are a strict but helpful tutor. "
  +:+ "The student is learning '" +:+ skill +:+ "'. "
  +:+ "Use the context below + conversation to explain clearly. "
  +:+ "Ask questions, give examples, and test the student often. "
  +:+ "Be assertive and structured." +:+ nl +:+ nl
  +:+ "Web Context:" +:+ nl +:+ context.

(** LLM-based teacher response. *)
Definition tutor_reply (user_input : string) (intro : bool) : M (State W) string :=
  s <- get ;;
  let skill := fmt_opt (current_skill (self s)) in
  context <- fetch_web_context (skill +:+ " " +:+ user_input) ;;
  let user_msg :=
    if intro
    then "Introduce " +:+ skill +:+ " and ask me a first warm-up question."
    else user_input in
  let messages := [SystemMessage (sys_prompt skill context); HumanMessage user_msg] in
  outside (LLMCall messages) (llm_content messages).

(** Refresh context every 5 turns. *)
Definition update_info : M (State W) unit :=
  print (nl +:+ "🔄 Updating with the latest resources..." +:+ nl).

(** One pass of the loop body after the exit test: reply, count the
    turn, and every fifth turn call [update_info]. *)
Definition turn (user_input : string) : M (State W) unit :=
  reply <- tutor_reply user_input false ;;
  print ("Tutor: " +:+ reply +:+ nl) ;;;
  s <- get ;;
  set_turn_count (turn_count (self s) + 1) ;;;
  s <- get ;;
  if (turn_count (self s) mod 5 =? 0)%nat then update_info else ret tt.

(** The [while True] loop of [run]; [inputs] are the lines the user
    types, and typing nothing more ends [input()] with [EOFError]. *)
Fixpoint run_loop (inputs : list string) : M (State W) unit :=
  match inputs with
  | [] => emit (Print "You: ") ;;; raise EOFError
  | user_input :: rest =>
      emit (Input "You: " user_input) ;;;
      if String.eqb (strip (lower user_input)) "exit"
      then print "Tutor: Good session. Go practice and come back later."
      else turn user_input ;;; run_loop rest
  end.

(** Main tutor loop. *)
Definition run (inputs : list string) : M (State W) unit :=
  print (nl +:+ "=== Personalized Learning Platform ===") ;;;
  s <- get ;;
  match report_skill_gaps (self s) with
  | [] => print "No skill gaps found! You’re job-ready 🎉"
  | _ :: _ =>
      rest <- asks_what_to_learn inputs ;;
      print ("Type 'exit' to stop learning at any time." +:+ nl) ;;;
      intro <- tutor_reply "" true ;;
      print ("Tutor: " +:+ intro +:+ " " +:+ nl) ;;;
      run_loop rest
  end.

End Methods.

(** *** Reading a trace *)

Definition search_url : string := "https://duckduckgo.com/html/".

Definition is_fetch (e : event) : bool :=
  match e with HttpGet _ _ => true | _ => false end.

(** What [update_info] prints. *)
Definition refresh_notice : string :=
  (nl +:+ "🔄 Updating with the latest resources..." +:+ nl) +:+ nl.

Definition is_refresh (e : event) : bool :=
  match e with Print text => String.eqb text refresh_notice | _ => false end.

(** A turn begins when the user answers the [You: ] prompt. *)
Definition is_user_turn (e : event) : bool :=
  match e with Input prompt _ => String.eqb prompt "You: " | _ => false end.

Fixpoint count (p : event -> bool) (tr : list event) : nat :=
  match tr with
  | [] => 0
  | e :: rest => (if p e then 1 else 0) + count p rest
  end.

(** The turns (numbered from 1; 0 is the introduction) in which an event
    satisfying [p] happens, one entry per event. *)
Fixpoint turns_where (p : event -> bool) (turn_no : nat) (tr : list event) : list nat :=
  match tr with
  | [] => []
  | e :: rest =>
      let turn_no' := if is_user_turn e then S turn_no else turn_no in
      (if p e then [turn_no'] else []) ++ turns_where p turn_no' rest
  end.

End Learning.

(** ** teacher.py *)
Module Teacher.
Import PyStr.

(** The ["configurable"] dict handed to the agent. *)
Module Config.
Record t : Type := {
  thread_id : string;
  user_name : string;
  job_role : string;
  job_proficiency : Proficiency;
  teaching_skill : string;
  teaching_proficiency : Proficiency;
  session_timestamp : string
}.
End Config.

(** The attributes of a [Teacher]. Those that [get_history] sets only when
    [history.json] exists are optional: reading an unset one raises
    [AttributeError]. *)
Record Self : Type := {
  session_timestamp : string;
  user_name : option string;
  job_role : option string;
  job_proficiency : option Proficiency;
  teaching_skill : option string;
  teaching_proficiency : option Proficiency;
  chat_history : option (list message);
  chat_init : bool
}.

Record State (W : Type) : Type := {
  world : W;
  files : gmap string string;
  self : Self
}.
Arguments world {W} _.
Arguments files {W} _.
Arguments self {W} _.

(** What the teacher asks of the outside world. *)
Class Agent (W : Type) : Type := {
  (* self.agent.invoke({"messages": messages}, config)["messages"] *)
  agent_invoke : list message -> Config.t -> M W (list message);
  (* datetime.now().strftime(...): reading the clock cannot fail *)
  strftime_now : W -> string * W
}.

Definition history_json : string := "history.json".

Definition default_message : string :=
  "Hi. Please search the web and give me an update on the latest content concerning this skill I'm learning".

Section Methods.
Context {U : PyStr.Unicode} {W : Type} `{Agent W}.

Definition outside {A} (call : M W A) : M (State W) A :=
  fun s =>
    let '(r, w') := call (world s) in
    (r, {| world := w'; files := files s; self := self s |}).

Definition now : M W string :=
  fun w => let '(t, w') := strftime_now w in (Ok t, w').

(** [self.name] *)
Definition attr {A} (name : string) (field : Self -> option A) : M (State W) A :=
  s <- get ;;
  need (AttributeError name) (field (self s)).

Definition set_files (f : gmap string string) : M (State W) unit :=
  modify (fun s => {| world := world s; files := f; self := self s |}).

Definition set_self (t : Self) : M (State W) unit :=
  modify (fun s => {| world := world s; files := files s; self := t |}).

(** [open(path, "w")]: the file is created, or cut to length zero. *)
Definition open_w (path : string) : M (State W) unit :=
  s <- get ;;
  set_files (<[path := ""]> (files s)).

(** [file.write(text)] on the file opened at [path]. *)
Definition write (path text : string) : M (State W) unit :=
  s <- get ;;
  set_files (alter (fun written => written +:+ text) path (files s)).

(** [self.chat_history.append(msg)] *)
Definition append_chat (msg : message) : M (State W) unit :=
  history <- attr "chat_history" chat_history ;;
  s <- get ;;
  let t := self s in
  set_self {| session_timestamp := session_timestamp t;
              user_name := user_name t;
              job_role := job_role t;
              job_proficiency := job_proficiency t;
              teaching_skill := teaching_skill t;
              teaching_proficiency := teaching_proficiency t;
              chat_history := Some (history ++ [msg]);
              chat_init := chat_init t |}.

Definition set_chat_init (b : bool) : M (State W) unit :=
  s <- get ;;
  let t := self s in
  set_self {| session_timestamp := session_timestamp t;
              user_name := user_name t;
              job_role := job_role t;
              job_proficiency := job_proficiency t;
              teaching_skill := teaching_skill t;
              teaching_proficiency := teaching_proficiency t;
              chat_history := chat_history t;
              chat_init := b |}.

Definition role_of (msg : message) : string :=
  match msg with
  | HumanMessage _ => "user"
  | AIMessage _ => "assistant"
  | SystemMessage _ => "system"
  | OtherMessage (Some role) _ => role
  | OtherMessage None _ => "unknown"
  end.

Fixpoint serialize_chat (msgs : list message) : M (State W) (list Json.json) :=
  match msgs with
  | [] => ret []
  | msg :: rest =>
      timestamp <- outside now ;;
      let entry := Json.JObj [ ("role", Json.JStr (role_of msg));
                               ("message", Json.JStr (content msg));
                               ("timestamp", Json.JStr timestamp) ] in
      entries <- serialize_chat rest ;;
      ret (entry :: entries)
  end.

(** The dict [data] of [save_history]. *)
Definition history_data : M (State W) Json.json :=
  history <- attr "chat_history" chat_history ;;
  serialized_chat <- serialize_chat history ;;
  s <- get ;;
  user_name <- attr "user_name" user_name ;;
  job_role <- attr "job_role" job_role ;;
  job_proficiency <- attr "job_proficiency" job_proficiency ;;
  teaching_skill <- attr "teaching_skill" teaching_skill ;;
  teaching_proficiency <- attr "teaching_proficiency" teaching_proficiency ;;
  ret (Json.JObj [ ("timestamp", Json.JStr (session_timestamp (self s)));
                   ("user_name", Json.JStr user_name);
                   ("job_role", Json.JStr job_role);
                   ("job_proficiency", Json.JStr (value job_proficiency));
                   ("teaching_skill", Json.JStr teaching_skill);
                   ("teaching_proficiency", Json.JStr (value teaching_proficiency));
                   ("chat_history", Json.JArr serialized_chat) ]).

(** Persist current session + chat history into history.json. *)
Definition save_history : M (State W) unit :=
  data <- history_data ;;
  open_w history_json ;;;
  write history_json (Json.dumps data 4).

(** Where a process that dies inside [save_history] stops: before the
    file is opened, or after it was opened and [k] characters of the
    text were written. *)
Inductive stop : Type := BeforeOpen | AfterOpen (k : nat).

Definition save_history_stopped (point : stop) : M (State W) unit :=
  data <- history_data ;;
  match point with
  | BeforeOpen => ret tt
  | AfterOpen k =>
      open_w history_json ;;;
      write history_json (slice_to k (Json.dumps data 4))
  end.

(** What a reader of the durable record finds: the text of
    [history.json], or nothing when there is no such file. *)
Definition stored (s : State W) : option string := files s !! history_json.

Definition make_config : M (State W) Config.t :=
  user_name <- attr "user_name" user_name ;;
  job_role <- attr "job_role" job_role ;;
  job_proficiency <- attr "job_proficiency" job_proficiency ;;
  teaching_skill <- attr "teaching_skill" teaching_skill ;;
  teaching_proficiency <- attr "teaching_proficiency" teaching_proficiency ;;
  s <- get ;;
  ret {| Config.thread_id := "1";
         Config.user_name := user_name;
         Config.job_role := job_role;
         Config.job_proficiency := job_proficiency;
         Config.teaching_skill := teaching_skill;
         Config.teaching_proficiency := teaching_proficiency;
         Config.session_timestamp := session_timestamp (self s) |}.

(** [response["messages"][-1]] *)
Definition last_message (msgs : list message) : M (State W) message :=
  need IndexError (last msgs).

Definition init_chat (message : string) : M (State W) string :=
  config <- make_config ;;
  let message := HumanMessage message in
  history <- attr "chat_history" chat_history ;;
  let all_messages := history ++ [message] in
  response <- outside (agent_invoke all_messages config) ;;
  assistant_reply <- last_message response ;;
  append_chat message ;;;
  append_chat assistant_reply ;;;
  save_history ;;;
  set_chat_init true ;;;
  ret (content assistant_reply).

Definition chat (message : string) : M (State W) string :=
  s <- get ;;
  if chat_init (self s) then
    config <- make_config ;;
    let user_message := HumanMessage message in
    response <- outside (agent_invoke [user_message] config) ;;
    assistant_reply <- last_message response ;;
    append_chat user_message ;;;
    append_chat assistant_reply ;;;
    save_history ;;;
    ret (content assistant_reply)
  else
    raise (RuntimeError "Init chat model first").

End Methods.

Definition with_world {W} (w : W) (s : State W) : State W :=
  {| world := w; files := files s; self := self s |}.

Definition with_files {W} (f : gmap string string) (s : State W) : State W :=
  {| world := world s; files := f; self := self s |}.

(** All the attributes that [get_history] loads are set. *)
Definition attributes_set (t : Self) : bool :=
  match user_name t, job_role t, job_proficiency t,
        teaching_skill t, teaching_proficiency t, chat_history t with
  | Some _, Some _, Some _, Some _, Some _, Some _ => true
  | _, _, _, _, _, _ => false
  end.

End Teacher.

(** ** Stand-in collaborators

    Small outside worlds to run the methods in. *)
Module Fixtures.

(** An interpreter for examples in ASCII: it is never asked about other
    text there, and leaves such text alone. *)
Definition plain_text : PyStr.Unicode := {|
  PyStr.unicode_strip := fun s => s;
  PyStr.unicode_lower := fun s => s;
  PyStr.unicode_int := fun _ => None
|}.

(** A completion service that answers from a script: each call takes the
    next reply; with none left the service is unavailable. *)
Record Scripted : Type := {
  gaps_replies : list Analyzer.Gaps.t;
  requirements_replies : list Analyzer.Requirements.t;
  wall_clock : string
}.

Definition unavailable : exn := ExternalError "ServiceUnavailable".

#[export] Instance scripted_completion : Analyzer.Completion Scripted := {|
  Analyzer.invoke_Requirements := fun _ w =>
    match requirements_replies w with
    | [] => (Raise unavailable, w)
    | r :: rest =>
        (Ok r, {| gaps_replies := gaps_replies w;
                  requirements_replies := rest;
                  wall_clock := wall_clock w |})
    end;
  Analyzer.invoke_Gaps := fun _ w =>
    match gaps_replies w with
    | [] => (Raise unavailable, w)
    | r :: rest =>
        (Ok r, {| gaps_replies := rest;
                  requirements_replies := requirements_replies w;
                  wall_clock := wall_clock w |})
    end;
  Analyzer.strftime_now := fun w => (wall_clock w, w)
|}.

Definition skill (name level : string) : dict :=
  [ ("skill_name", name); ("proficiency_level", level) ].

Definition gap (name current required : string) : Analyzer.SkillGap.t :=
  {| Analyzer.SkillGap.skill_name := name;
     Analyzer.SkillGap.current_level := current;
     Analyzer.SkillGap.required_level := required |}.

Definition profile (skills : list dict) : Analyzer.UserProfile.t :=
  {| Analyzer.UserProfile.user_name := "Ada";
     Analyzer.UserProfile.skills := skills;
     Analyzer.UserProfile.profile_summary := "Engineer." |}.

Definition job : Analyzer.JobDetails.t :=
  {| Analyzer.JobDetails.job_role := "Backend Engineer";
     Analyzer.JobDetails.company_name := "Acme";
     Analyzer.JobDetails.job_location := "Lagos";
     Analyzer.JobDetails.description_summary := "Builds services." |}.

Definition answering (replies : list (list Analyzer.SkillGap.t)) : Scripted :=
  {| gaps_replies := map (fun l => {| Analyzer.Gaps.skills := l |}) replies;
     requirements_replies := [];
     wall_clock := "2025-01-01 09:00:00" |}.

Definition extracting (reply : list Analyzer.Skill.t) : Scripted :=
  {| gaps_replies := [];
     requirements_replies := [ {| Analyzer.Requirements.skills := reply |} ];
     wall_clock := "2025-01-01 09:00:00" |}.

(** A desk for the tutor: the web search and the model are each up or down. *)
Record Desk : Type := { web_up : bool; llm_up : bool }.

#[export] Instance desk_tutor : Learning.Tutor Desk := {|
  Learning.requests_get_text := fun _ q w =>
    if web_up w then (Ok ("<html>" +:+ q +:+ "</html>"), w)
    else (Raise (ExternalError "ConnectionError"), w);
  Learning.llm_content := fun _ w =>
    if llm_up w then (Ok "Noted.", w) else (Raise unavailable, w)
|}.

Definition severe_gap (name : string) : dict :=
  [ ("skill_name", name); ("current_level", "none");
    ("required_level", "expert"); ("gap_severity", "critical") ].

Definition classroom (w : Desk) (turns : nat) : Learning.State Desk :=
  {| Learning.world := w;
     Learning.trace := [];
     Learning.self := {| Learning.report_skill_gaps := [severe_gap "docker"];
                         Learning.turn_count := turns;
                         Learning.current_skill := Some "docker" |} |}.

(** A session of twelve answers, after picking gap 1, closed by [exit]. *)
Definition twelve_turns : list string :=
  "1" :: repeat "Tell me more." 12 ++ ["exit"].

(** An agent that is up or down, with a fixed clock. *)
Record Office : Type := { agent_up : bool; office_clock : string }.

#[export] Instance office_agent : Teacher.Agent Office := {|
  Teacher.agent_invoke := fun msgs _ w =>
    if agent_up w then (Ok (msgs ++ [AIMessage "Let us begin."]), w)
    else (Raise unavailable, w);
  Teacher.strftime_now := fun w => (office_clock w, w)
|}.

Definition pupil (init : bool) : Teacher.Self :=
  {| Teacher.session_timestamp := "2025-01-01 09:00:00";
     Teacher.user_name := Some "Ada";
     Teacher.job_role := Some "Backend Engineer";
     Teacher.job_proficiency := Some Intermediate;
     Teacher.teaching_skill := Some "docker";
     Teacher.teaching_proficiency := Some Advanced;
     Teacher.chat_history := Some [HumanMessage "Hi"; AIMessage "Hello Ada."];
     Teacher.chat_init := init |}.

Definition session (up init : bool) (disk : gmap string string) : Teacher.State Office :=
  {| Teacher.world := {| agent_up := up; office_clock := "2025-01-01 09:05:00" |};
     Teacher.files := disk;
     Teacher.self := pupil init |}.

Definition up_desk : Desk := {| web_up := true; llm_up := true |}.

(** The record [save_history] builds for [session true true]. *)
Definition pupil_record : Json.json :=
  Eval vm_compute in
    match fst (Teacher.history_data (session true true ∅)) with
    | Ok data => data
    | Raise _ => Json.JStr ""
    end.

End Fixtures.

(** ** Reading a report and a console line *)
Module Console.
Import PyStr.

(** The keys [asks_what_to_learn] reads from every gap of the report. *)
Definition gap_keys : list string :=
  ["skill_name"; "current_level"; "required_level"; "gap_severity"].

Definition complete (gap : dict) : bool :=
  forallb (fun k => match dict_get gap k with Some _ => true | None => false end)
          gap_keys.

(** The test that ends the tutor loop. *)
Definition is_exit {U : Unicode} (line : string) : bool :=
  String.eqb (strip (lower line)) "exit".

Fixpoint digits_only (s : string) : bool :=
  match s with
  | EmptyString => true
  | String c r =>
      match Ascii.is_nat c with Some _ => digits_only r | None => false end
  end.

Definition is_input (e : Learning.event) : bool :=
  match e with Learning.Input _ _ => true | _ => false end.

Definition is_llm_call (e : Learning.event) : bool :=
  match e with Learning.LLMCall _ => true | _ => false end.

Definition is_print (e : Learning.event) : bool :=
  match e with Learning.Print _ => true | _ => false end.

(** The attributes after [self.current_skill = name]. *)
Definition focused (name : string) (t : Learning.Platform) : Learning.Platform :=
  {| Learning.report_skill_gaps := Learning.report_skill_gaps t;
     Learning.turn_count := Learning.turn_count t;
     Learning.current_skill := Some name |}.

(** The state after the events [tr] were added to the trace. *)
Definition extend {W} (tr : list Learning.event) (s : Learning.State W)
    : Learning.State W :=
  {| Learning.world := Learning.world s;
     Learning.trace := Learning.trace s ++ tr;
     Learning.self := Learning.self s |}.

End Console.

(** ** teacher.py: the prompt handed to the agent *)
Module Prompt.
Import PyStr.

(** A value of the ["configurable"] dict. *)
Inductive value : Type :=
  | Str (s : string)
  | Level (p : Proficiency).

(** The dict [init_chat] and [chat] build under ["configurable"]. *)
Definition configurable (c : Teacher.Config.t) : list (string * value) :=
  [ ("thread_id", Str (Teacher.Config.thread_id c));
    ("user_name", Str (Teacher.Config.user_name c));
    ("job_role", Str (Teacher.Config.job_role c));
    ("job_proficiency", Level (Teacher.Config.job_proficiency c));
    ("teaching_skill", Str (Teacher.Config.teaching_skill c));
    ("teaching_proficiency", Level (Teacher.Config.teaching_proficiency c));
    ("session_timestamp", Str (Teacher.Config.session_timestamp c)) ].

(** [d.get(key)] *)
Fixpoint get_value (d : list (string * value)) (key : string) : option value :=
  match d with
  | [] => None
  | (k, v) :: rest => if String.eqb key k then Some v else get_value rest key
  end.

Section Rendering.
(** How an f-string writes a [Proficiency] member; the enum is not part of
    the sources. *)
Variable show : Proficiency -> string.

(** [f"{x}"] for what [get] returned. *)
Definition render (o : option value) : string :=
  match o with
  | None => "None"
  | Some (Str s) => s
  | Some (Level p) => show p
  end.

Definition system_msg (c : Teacher.Config.t) : string :=
  let user_name := render (get_value (configurable c) "user_name") in
  let job_role := render (get_value (configurable c) "job_role") in
  let job_proficiency := render (get_value (configurable c) "job_proficiency") in
  let teaching_skill := render (get_value (configurable c) "teaching_skill") in
  let teaching_proficiency := render (get_value (configurable c) "teachin_proficiency") in
  let session_timestamp := render (get_value (configurable c) "session_timestamp") in
  "You are a skilled teacher. Address the user as " +:+ user_name +:+ ". "
  +:+ "The user is a " +:+ job_role +:+ " with " +:+ job_proficiency +:+ " proficiency. "
  +:+ "Your task is to teach " +:+ user_name +:+ " the skill of " +:+ teaching_skill +:+ " "
  +:+ "at a " +:+ teaching_proficiency +:+ " level. "
  +:+ "Explain concepts step by step, give clear examples, and adapt your style "
  +:+ "to match " +:+ user_name +:+ "'s background and learning pace. "
  +:+ "Session timestamp is " +:+ session_timestamp +:+ ". "
  +:+ "Your answers should be short. ".

(** [prompt(state, config)]: the system message, then the state's messages. *)
Definition prompt (state_messages : list message) (c : Teacher.Config.t) : list message :=
  SystemMessage (system_msg c) :: state_messages.

End Rendering.

(** The config with another teaching proficiency. *)
Definition with_teaching_proficiency (p : Proficiency) (c : Teacher.Config.t)
    : Teacher.Config.t :=
  {| Teacher.Config.thread_id := Teacher.Config.thread_id c;
     Teacher.Config.user_name := Teacher.Config.user_name c;
     Teacher.Config.job_role := Teacher.Config.job_role c;
     Teacher.Config.job_proficiency := Teacher.Config.job_proficiency c;
     Teacher.Config.teaching_skill := Teacher.Config.teaching_skill c;
     Teacher.Config.teaching_proficiency := p;
     Teacher.Config.session_timestamp := Teacher.Config.session_timestamp c |}.

End Prompt.

(** ** analyzer.py: reading the CV and the whole analysis *)
Module Pipeline.
Import PyStr.

(** The pydantic models of the three other structured calls. *)
Module CleanResponse.
Record t : Type := { job_role : string; cleaned_description : string }.
End CleanResponse.

Module JobDetailsResponse.
Record t : Type :=
  { job_role : string; company_name : string; job_location : string;
    description_summary : string }.
End JobDetailsResponse.

Module UserSkill.
Record t : Type := { skill_name : string; proficiency_level : string }.
End UserSkill.

Module CVProfile.
Record t : Type :=
  { user_name : string; skills : list UserSkill.t; profile_summary : string }.
End CVProfile.

(** What [analyze_cv] is given: a path ([str] or [Path]), or an open
    file-like object with its [name] attribute, if it has one. *)
Inductive cv : Type :=
  | CvPath (path : string)
  | CvFile (name : option string) (handle : nat).

(** What reading a CV asks of the outside world. *)
Class Documents (W : Type) : Type := {
  invoke_CVProfile : list message -> M W CVProfile.t;
  invoke_CleanResponse : list message -> M W CleanResponse.t;
  invoke_JobDetailsResponse : list message -> M W JobDetailsResponse.t;
  (* open(path, "r", encoding="utf-8").read() *)
  read_text : string -> M W string;
  (* cv.read(), decoded as UTF-8 when it is bytes *)
  read_handle : nat -> M W string;
  (* [p.text for p in docx.Document(cv).paragraphs] *)
  docx_paragraphs : cv -> M W (list string);
  (* [page.extract_text() for page in PdfReader(cv).pages] *)
  pdf_pages : cv -> M W (list (option string))
}.

(** *** [Path(p).suffix], for POSIX paths *)

(** The components of a path: the pieces between slashes, without the
    empty ones and the single dots. *)
Fixpoint components_go (current : string) (path : string) : list string :=
  match path with
  | EmptyString => [String.rev current]
  | String c rest =>
      if Ascii.eqb c "/"
      then String.rev current :: components_go "" rest
      else components_go (String c current) rest
  end.

Definition keep_component (part : string) : bool :=
  negb (String.eqb part "" || String.eqb part ".").

Definition components (path : string) : list string :=
  List.filter keep_component (components_go "" path).

(** [Path(p).name] *)
Definition name_of_path (path : string) : string :=
  match last (components path) with Some n => n | None => "" end.

(** The part of [s] from its last dot on, if it has a dot. *)
Fixpoint from_last_dot (s : string) : option string :=
  match s with
  | EmptyString => None
  | String c rest =>
      match from_last_dot rest with
      | Some found => Some found
      | None => if Ascii.eqb c "." then Some s else None
      end
  end.

(** [i = name.rfind('.')]; the suffix is [name[i:]] when
    [0 < i < len(name) - 1], and empty otherwise. *)
Definition suffix (path : string) : string :=
  match name_of_path path with
  | EmptyString => ""
  | String _ rest =>
      match from_last_dot rest with
      | Some found => if (2 <=? String.length found)%nat then found else ""
      | None => ""
      end
  end.

Section Methods.
Context {U : PyStr.Unicode} {W : Type} `{Analyzer.Completion W} `{Documents W}.

Definition page_text (extracted : option string) : string :=
  match extracted with
  | Some text => text
  | None => ""
  end.

(** The text of the document, by extension. *)
Definition extract_text (file_ext : string) (source : cv) (read : M W string)
    : M W string :=
  if String.eqb file_ext ".txt" then read
  else if String.eqb file_ext ".docx" then
    paragraphs <- docx_paragraphs source ;;
    ret (join nl paragraphs)
  else if String.eqb file_ext ".pdf" then
    pages <- pdf_pages source ;;
    ret (join nl (map page_text pages))
  else raise ValueError.

Definition cv_prompt (raw_text : string) : string :=
  nl +:+ "                This is a user's CV/resume. Extract the following structured information:"
  +:+ nl +:+ "                - User's full name"
  +:+ nl +:+ "                - Skills with proficiency levels (beginner/intermediate/advanced/expert)"
  +:+ nl +:+ "                - A short user profile summary of the user."
  +:+ nl +:+ nl +:+ "                CV Content:"
  +:+ nl +:+ "                " +:+ raw_text
  +:+ nl +:+ "            ".

Definition user_skill_dict (s : UserSkill.t) : dict :=
  [ ("skill_name", UserSkill.skill_name s);
    ("proficiency_level", UserSkill.proficiency_level s) ].

(** Read a CV file (PDF/DOCX/TXT), extract text, and parse structured
    user profile. *)
Definition analyze_cv (source : cv) : M W Analyzer.UserProfile.t :=
  raw_text <-
    match source with
    | CvPath path =>
        let file_ext := lower (suffix path) in
        extract_text file_ext source (read_text path)
    | CvFile name handle =>
        match name with
        | None | Some EmptyString => raise ValueError
        | Some name =>
            let file_ext := lower (suffix name) in
            extract_text file_ext source (read_handle handle)
        end
    end ;;
  let message := HumanMessage (cv_prompt raw_text) in
  response <- invoke_CVProfile [message] ;;
  ret {| Analyzer.UserProfile.user_name := CVProfile.user_name response;
         Analyzer.UserProfile.skills := map user_skill_dict (CVProfile.skills response);
         Analyzer.UserProfile.profile_summary := CVProfile.profile_summary response |}.

Definition clean_prompt (raw_text : string) : string :=
  nl +:+ "                This data is from a job posting. Please clean the text and extract only information "
  +:+ nl +:+ "                relevant to the job position and company. Remove navigation elements, advertisements, "
  +:+ nl +:+ "                unrelated content, and formatting artifacts."
  +:+ nl +:+ nl +:+ "                Focus on:"
  +:+ nl +:+ "                - Job title/role"
  +:+ nl +:+ "                - Job responsibilities and requirements"
  +:+ nl +:+ "                - Company information, name, location"
  +:+ nl +:+ "                - Skills and qualifications needed"
  +:+ nl +:+ "                - Job benefits and conditions"
  +:+ nl +:+ nl +:+ "                Raw Text:"
  +:+ nl +:+ "                " +:+ raw_text
  +:+ nl +:+ "                ".

(** Use LLM to clean job description text and extract relevant information. *)
Definition clean_job_description (raw_text : string) : M W (string * string) :=
  let message := HumanMessage (clean_prompt raw_text) in
  response <- invoke_CleanResponse [message] ;;
  ret (CleanResponse.job_role response, CleanResponse.cleaned_description response).

Definition details_prompt (job_role job_description : string) : string :=
  nl +:+ "                This is a job description for " +:+ job_role
  +:+ " role. Please extract the job role, company name, job location, and short job description summary."
  +:+ nl +:+ nl +:+ "                Description:"
  +:+ nl +:+ "                " +:+ job_description
  +:+ nl +:+ "                ".

(** Use LLM to extract job role, company name, job location, and short job
    description summary. *)
Definition get_job_details (job_role job_description : string)
    : M W Analyzer.JobDetails.t :=
  let message := HumanMessage (details_prompt job_role job_description) in
  response <- invoke_JobDetailsResponse [message] ;;
  ret {| Analyzer.JobDetails.job_role := JobDetailsResponse.job_role response;
         Analyzer.JobDetails.company_name := JobDetailsResponse.company_name response;
         Analyzer.JobDetails.job_location := JobDetailsResponse.job_location response;
         Analyzer.JobDetails.description_summary :=
           JobDetailsResponse.description_summary response |}.

(** User inputs job description and cv. *)
Definition analyze (job_description : string) (user_cv : cv) : M W Analyzer.Report.t :=
  user_profile <- analyze_cv user_cv ;;
  cleaned <- clean_job_description job_description ;;
  let job_role := fst cleaned in
  let cleaned_job_description := snd cleaned in
  job_details <- get_job_details job_role cleaned_job_description ;;
  required_skills <- Analyzer.get_requirements cleaned_job_description ;;
  skill_gaps <- Analyzer.get_gaps user_profile required_skills ;;
  Analyzer.generate_report user_profile job_details required_skills skill_gaps.

End Methods.

(** A value of a dict is in normal form: trimming and lower-casing it again
    changes nothing. *)
Definition normal {U : Unicode} (d : dict) : Prop :=
  Forall (fun kv => lower (strip (snd kv)) = snd kv) d.

(** A record of a reply that is written in ASCII. *)
Definition ascii_skill (skill : Analyzer.Skill.t) : bool :=
  isascii (Analyzer.Skill.skill_name skill)
  && isascii (Analyzer.Skill.proficiency_level skill).

Definition ascii_gap (gap : Analyzer.SkillGap.t) : bool :=
  isascii (Analyzer.SkillGap.skill_name gap)
  && isascii (Analyzer.SkillGap.current_level gap)
  && isascii (Analyzer.SkillGap.required_level gap).

End Pipeline.

(** ** main.py: the [/analyze] endpoint *)
Module Endpoint.
Import PyStr.

(** An uploaded file: its [filename] and what [read()] returns. *)
Record Upload : Type := { filename : string; body : string }.

(** What the endpoint answers: the report, or a JSON error with a status. *)
Inductive response : Type :=
  | ReportBody (report : Analyzer.Report.t)
  | ErrorBody (status : nat) (error : string).

(** The server's state: the outside world of the analyzer, and the files
    on disk. *)
Record Server (W : Type) : Type := { inner : W; disk : gmap string string }.
Arguments inner {W} _.
Arguments disk {W} _.

(** What the endpoint and the readers of files ask of the host. *)
Class Host (W : Type) : Type := {
  (* the name tempfile.NamedTemporaryFile(delete=False, suffix=...) picks *)
  mkstemp : string -> W -> string * W;
  (* bytes.decode("utf-8") *)
  decode_utf8 : string -> res string;
  (* the paragraphs docx.Document finds in a file's content *)
  parse_docx : string -> res (list string);
  (* the text PdfReader extracts from each page of a file's content *)
  parse_pdf : string -> res (list (option string))
}.

Definition file_not_found : exn := ExternalError "FileNotFoundError".

Section Methods.
Context {U : PyStr.Unicode} {W : Type} `{Analyzer.Completion W} `{Pipeline.Documents W} `{Host W}.

(** A call on the analyzer's world leaves the disk alone. *)
Definition lift {A} (call : M W A) : M (Server W) A :=
  fun s =>
    let '(r, w') := call (inner s) in
    (r, {| inner := w'; disk := disk s |}).

(** The content of the file at [path]. *)
Definition content_of {A} (path : string) (parse : string -> res A) : M (Server W) A :=
  fun s =>
    match disk s !! path with
    | Some bytes => (parse bytes, s)
    | None => (Raise file_not_found, s)
    end.

(** The analyzer on the server: its model calls go to the analyzer's
    world, its reads of a path go to the disk. *)
#[export] Instance server_completion : Analyzer.Completion (Server W) := {|
  Analyzer.invoke_Requirements := fun msgs => lift (Analyzer.invoke_Requirements msgs);
  Analyzer.invoke_Gaps := fun msgs => lift (Analyzer.invoke_Gaps msgs);
  Analyzer.strftime_now := fun s =>
    let '(t, w') := Analyzer.strftime_now (inner s) in
    (t, {| inner := w'; disk := disk s |})
|}.

#[export] Instance server_documents : Pipeline.Documents (Server W) := {|
  Pipeline.invoke_CVProfile := fun msgs => lift (Pipeline.invoke_CVProfile msgs);
  Pipeline.invoke_CleanResponse := fun msgs => lift (Pipeline.invoke_CleanResponse msgs);
  Pipeline.invoke_JobDetailsResponse :=
    fun msgs => lift (Pipeline.invoke_JobDetailsResponse msgs);
  Pipeline.read_text := fun path => content_of path decode_utf8;
  Pipeline.read_handle := fun handle => lift (Pipeline.read_handle handle);
  Pipeline.docx_paragraphs := fun source =>
    match source with
    | Pipeline.CvPath path => content_of path parse_docx
    | Pipeline.CvFile _ _ => lift (Pipeline.docx_paragraphs source)
    end;
  Pipeline.pdf_pages := fun source =>
    match source with
    | Pipeline.CvPath path => content_of path parse_pdf
    | Pipeline.CvFile _ _ => lift (Pipeline.pdf_pages source)
    end
|}.

(** [with tempfile.NamedTemporaryFile(delete=False, suffix=...) as tmp:
    tmp.write(content); tmp_path = tmp.name] *)
Definition named_temporary_file (suffix content : string) : M (Server W) string :=
  fun s =>
    let '(tmp_path, w') := mkstemp suffix (inner s) in
    (Ok tmp_path, {| inner := w'; disk := <[tmp_path := content]> (disk s) |}).

(** [if os.path.exists(path): os.remove(path)] *)
Definition remove_if_exists (path : string) : M (Server W) unit :=
  fun s =>
    match disk s !! path with
    | Some _ => (Ok tt, {| inner := inner s; disk := delete path (disk s) |})
    | None => (Ok tt, s)
    end.

(** [try: body finally: final] *)
Definition try_finally {St A} (body : M St A) (final : M St unit) : M St A :=
  fun s =>
    let '(r, s1) := body s in
    match final s1 with
    | (Ok _, s2) => (r, s2)
    | (Raise e, s2) => (Raise e, s2)
    end.

Definition falsy (text : option string) : bool :=
  match text with
  | None | Some EmptyString => true
  | Some _ => false
  end.

(** Analyze a CV (file or text) against a job description and return
    skill-gap report. *)
Definition analyze_endpoint (job_description : string) (cv_file : option Upload)
    (cv_text : option string) : M (Server W) response :=
  match cv_file with
  | None =>
      if falsy cv_text
      then ret (ErrorBody 400 "Either cv_file or cv_text must be provided")
      else
        tmp_path <- named_temporary_file ".txt" (match cv_text with Some text => text | None => "" end) ;;
        try_finally
          (report <- Pipeline.analyze job_description (Pipeline.CvPath tmp_path) ;;
           ret (ReportBody report))
          (remove_if_exists tmp_path)
  | Some upload =>
      let suffix := Pipeline.suffix (filename upload) in
      tmp_path <- named_temporary_file suffix (body upload) ;;
      try_finally
        (report <- Pipeline.analyze job_description (Pipeline.CvPath tmp_path) ;;
         ret (ReportBody report))
        (remove_if_exists tmp_path)
  end.

End Methods.

End Endpoint.

(** ** Sample sessions and documents *)
Module Samples.
Import PyStr Fixtures.

(** A learner with two gaps, before a skill is chosen. *)
Definition two_gaps : list dict := [severe_gap "docker"; severe_gap "sql"].

Definition lesson (gaps : list dict) : Learning.State Desk :=
  {| Learning.world := up_desk;
     Learning.trace := [];
     Learning.self := {| Learning.report_skill_gaps := gaps;
                         Learning.turn_count := 0;
                         Learning.current_skill := None |} |}.

(** A teacher created where there is no [history.json]. *)
Definition stranger : Teacher.Self :=
  {| Teacher.session_timestamp := "2025-01-01 09:00:00";
     Teacher.user_name := None;
     Teacher.job_role := None;
     Teacher.job_proficiency := None;
     Teacher.teaching_skill := None;
     Teacher.teaching_proficiency := None;
     Teacher.chat_history := None;
     Teacher.chat_init := false |}.

Definition unloaded : Teacher.State Office :=
  {| Teacher.world := {| agent_up := true; office_clock := "2025-01-01 09:05:00" |};
     Teacher.files := ∅;
     Teacher.self := stranger |}.

(** An agent that answers with no message, beside a clock that stands
    still. *)
Record Silent : Type := { asked : nat }.

#[export] Instance silent_agent : Teacher.Agent Silent := {|
  Teacher.agent_invoke := fun _ _ w => (Ok [], {| asked := S (asked w) |});
  Teacher.strftime_now := fun w => ("2025-01-01 09:05:00", w)
|}.

Definition silent_session (init : bool) : Teacher.State Silent :=
  {| Teacher.world := {| asked := 0 |};
     Teacher.files := ∅;
     Teacher.self := pupil init |}.

Definition pupil_config : Teacher.Config.t :=
  {| Teacher.Config.thread_id := "1";
     Teacher.Config.user_name := "Ada";
     Teacher.Config.job_role := "Backend Engineer";
     Teacher.Config.job_proficiency := Intermediate;
     Teacher.Config.teaching_skill := "docker";
     Teacher.Config.teaching_proficiency := Advanced;
     Teacher.Config.session_timestamp := "2025-01-01 09:00:00" |}.

(** A document service beside the scripted completion service: every
    structured call is answered, and open file objects can be read. *)
Definition ada_profile : Pipeline.CVProfile.t :=
  {| Pipeline.CVProfile.user_name := "Ada Obi";
     Pipeline.CVProfile.skills :=
       [ {| Pipeline.UserSkill.skill_name := "Python";
            Pipeline.UserSkill.proficiency_level := "advanced" |} ];
     Pipeline.CVProfile.profile_summary := "Backend engineer." |}.

#[export] Instance scripted_documents : Pipeline.Documents Scripted := {|
  Pipeline.invoke_CVProfile := fun _ w => (Ok ada_profile, w);
  Pipeline.invoke_CleanResponse := fun _ w =>
    (Ok {| Pipeline.CleanResponse.job_role := "Backend Engineer";
           Pipeline.CleanResponse.cleaned_description := "Builds services with Docker." |},
     w);
  Pipeline.invoke_JobDetailsResponse := fun _ w =>
    (Ok {| Pipeline.JobDetailsResponse.job_role := "Backend Engineer";
           Pipeline.JobDetailsResponse.company_name := "Acme";
           Pipeline.JobDetailsResponse.job_location := "Lagos";
           Pipeline.JobDetailsResponse.description_summary := "Builds services." |},
     w);
  Pipeline.read_text := fun _ w => (Raise Endpoint.file_not_found, w);
  Pipeline.read_handle := fun _ w => (Ok "Ada Obi. Python, advanced.", w);
  Pipeline.docx_paragraphs := fun _ w => (Ok ["Ada Obi"; "Python, advanced."], w);
  Pipeline.pdf_pages := fun _ w => (Ok [Some "Ada Obi"; None], w)
|}.

(** A host that names its temporary files after one pattern and reads
    every file as plain text. *)
#[export] Instance scripted_host : Endpoint.Host Scripted := {|
  Endpoint.mkstemp := fun suffix w => ("/tmp/tmpq3x8k1" +:+ suffix, w);
  Endpoint.decode_utf8 := fun bytes => Ok bytes;
  Endpoint.parse_docx := fun bytes => Ok [bytes];
  Endpoint.parse_pdf := fun bytes => Ok [Some bytes]
|}.

(** A service with one reply ready for each of the two analyzer calls. *)
Definition studio : Scripted :=
  {| gaps_replies :=
       [ {| Analyzer.Gaps.skills := [gap " Docker " "None" "Expert"] |} ];
     requirements_replies :=
       [ {| Analyzer.Requirements.skills :=
              [ {| Analyzer.Skill.skill_name := " Docker";
                   Analyzer.Skill.proficiency_level := "EXPERT" |} ] |} ];
     wall_clock := "2025-01-01 09:00:00" |}.

Definition server (files : gmap string string) : Endpoint.Server Scripted :=
  {| Endpoint.inner := studio; Endpoint.disk := files |}.

End Samples.

(** * Properties *)

(** ** The design's gap computation on its own scenarios (section 8) *)
Section DesignScenarios.
#[local] Existing Instance Fixtures.plain_text.

Example design_python_docker :
  Design.computeGaps [Fixtures.skill "python" "advanced"]
                     [Fixtures.skill "python" "advanced";
                      Fixtures.skill "docker" "intermediate"]
  = [ {| Design.skill_name := "docker"; Design.current_level := PNone;
         Design.required_level := Intermediate; Design.severity := Design.Medium |} ].
Proof. reflexivity. Qed.

Example design_absent_expert :
  Design.computeGaps [] [Fixtures.skill "rust" "expert"]
  = [ {| Design.skill_name := "rust"; Design.current_level := PNone;
         Design.required_level := Expert; Design.severity := Design.Critical |} ].
Proof. reflexivity. Qed.

End DesignScenarios.

(** A loop that appends one item per element builds the mapped list. *)
Lemma fold_append_map {A B} (f : A -> B) (l : list A) (acc : list B) :
  fold_left (fun acc x => acc ++ [f x]) l acc = acc ++ map f l.
Proof.
  revert acc. induction l as [|x l IH]; intros acc; simpl.
  - now rewrite app_nil_r.
  - rewrite IH, <- app_assoc. reflexivity.
Qed.

(** ** analyzer.py *)
Section AnalyzerFacts.
Import Analyzer.
Context {U : PyStr.Unicode} {W : Type} `{Completion W}.

Lemma get_gaps_unfold (user_profile : UserProfile.t) (required_skills : list dict) (w : W) :
  get_gaps user_profile required_skills w =
  match invoke_Gaps [HumanMessage (gaps_prompt user_profile required_skills)] w with
  | (Ok response, w') => (Ok (map gap_dict (Gaps.skills response)), w')
  | (Raise e, w') => (Raise e, w')
  end.
Proof.
  unfold get_gaps, bind, ret.
  destruct (invoke_Gaps _ w) as [[response|e] w']; [|reflexivity].
  now rewrite fold_append_map.
Qed.

Lemma get_requirements_unfold (description : string) (w : W) :
  get_requirements description w =
  match invoke_Requirements [HumanMessage (requirements_prompt description)] w with
  | (Ok response, w') => (Ok (map skill_dict (Requirements.skills response)), w')
  | (Raise e, w') => (Raise e, w')
  end.
Proof.
  unfold get_requirements, bind, ret.
  destruct (invoke_Requirements _ w) as [[response|e] w']; [|reflexivity].
  now rewrite fold_append_map.
Qed.

(** C1 (amended): [get_gaps] emits one gap entry for every entry of the
    completion service's reply, trimmed and lower-cased, and nothing else:
    it compares no levels and looks nothing up in the required list, so
    the gap sequence is empty exactly when the reply is; when the service
    fails, its error is raised. *)
Theorem get_gaps_emits_every_reply_entry
    (user_profile : UserProfile.t) (required_skills : list dict) (w : W) :
  match invoke_Gaps [HumanMessage (gaps_prompt user_profile required_skills)] w with
  | (Ok response, w') =>
      exists gaps,
        get_gaps user_profile required_skills w = (Ok gaps, w')
        /\ length gaps = length (Gaps.skills response)
        /\ (forall g, In g gaps <->
                      exists gap, In gap (Gaps.skills response) /\ g = gap_dict gap)
        /\ (gaps = [] <-> Gaps.skills response = [])
  | (Raise e, w') => get_gaps user_profile required_skills w = (Raise e, w')
  end.
Proof.
  rewrite get_gaps_unfold.
  destruct (invoke_Gaps _ w) as [[response|e] w']; [|reflexivity].
  exists (map gap_dict (Gaps.skills response)). repeat split.
  - now rewrite length_map.
  - intros Hin. apply in_map_iff in Hin as (gap & <- & Hin). now exists gap.
  - intros (gap & Hin & ->). now apply in_map.
  - intros Hnil. now destruct (Gaps.skills response).
  - intros ->. reflexivity.
Qed.

(** C2 (amended): the gap sequence is a function of the two inputs and
    of the completion service's reply: two runs on the same inputs in
    which the service gives the same reply produce the same outcome,
    order and content. *)
Theorem get_gaps_determined_by_reply
    (user_profile : UserProfile.t) (required_skills : list dict) (w1 w2 : W) :
  fst (invoke_Gaps [HumanMessage (gaps_prompt user_profile required_skills)] w1)
  = fst (invoke_Gaps [HumanMessage (gaps_prompt user_profile required_skills)] w2) ->
  fst (get_gaps user_profile required_skills w1)
  = fst (get_gaps user_profile required_skills w2).
Proof.
  rewrite !get_gaps_unfold.
  destruct (invoke_Gaps _ w1) as [[r1|e1] w1'], (invoke_Gaps _ w2) as [[r2|e2] w2'];
    simpl; intros Heq; congruence.
Qed.

(** C3 (amended): the gap sequence keeps the order of the completion
    service's reply: the entry at each position is the reply's entry at
    that position, trimmed and lower-cased. The list of required skills
    reaches the result only through the prompt. *)
Theorem get_gaps_keeps_reply_order
    (user_profile : UserProfile.t) (required_skills : list dict) (w w' : W)
    (response : Gaps.t) :
  invoke_Gaps [HumanMessage (gaps_prompt user_profile required_skills)] w
  = (Ok response, w') ->
  exists gaps,
    get_gaps user_profile required_skills w = (Ok gaps, w')
    /\ forall i : nat, gaps !! i = gap_dict <$> (Gaps.skills response !! i).
Proof.
  intros Hreply. rewrite get_gaps_unfold, Hreply.
  eexists. split; [reflexivity|].
  intros i. apply list_lookup_fmap.
Qed.

(** C4 (amended): [generate_report] always returns, and the [skill_gaps]
    of its report is the list it was given, unchanged; an entry built by
    [get_gaps] has exactly the keys [skill_name], [current_level] and
    [required_level], so it carries no [gap_severity], and no severity is
    computed from the levels anywhere. *)
Theorem report_gaps_pass_through
    (user_profile : UserProfile.t) (job_details : JobDetails.t)
    (skill_requirements skill_gaps : list dict) (w : W) :
  (exists report w',
      generate_report user_profile job_details skill_requirements skill_gaps w
      = (Ok report, w')
      /\ Report.skill_gaps report = skill_gaps
      /\ Report.required_skills report = skill_requirements)
  /\ forall gap : SkillGap.t,
      dict_keys (gap_dict gap) = ["skill_name"; "current_level"; "required_level"]
      /\ dict_get (gap_dict gap) "gap_severity" = None.
Proof.
  split.
  - unfold generate_report, bind, now, ret.
    destruct (strftime_now w) as [t w']. eexists _, _. repeat split.
  - intros gap. split; reflexivity.
Qed.

(** C5 (amended): [get_requirements] returns one record for every record
    of the completion service's reply, in the reply's order, with name
    and level trimmed and lower-cased; records that share a canonical
    name are all kept. *)
Theorem get_requirements_keeps_every_record (description : string) (w : W) :
  match invoke_Requirements [HumanMessage (requirements_prompt description)] w with
  | (Ok response, w') =>
      exists skills_dicts,
        get_requirements description w = (Ok skills_dicts, w')
        /\ length skills_dicts = length (Requirements.skills response)
        /\ forall i : nat,
             skills_dicts !! i = skill_dict <$> (Requirements.skills response !! i)
  | (Raise e, w') => get_requirements description w = (Raise e, w')
  end.
Proof.
  rewrite get_requirements_unfold.
  destruct (invoke_Requirements _ w) as [[response|e] w']; [|reflexivity].
  eexists. split; [reflexivity|]. split.
  - now rewrite length_map.
  - intros i. apply list_lookup_fmap.
Qed.

End AnalyzerFacts.

Section AnalyzerScenarios.
Import Analyzer Fixtures Design.
#[local] Existing Instance plain_text.

(** C1, as stated, fails: the candidate list equals the required list,
    the service replies with a tie on [python] and with [cobol], which
    nobody requires, and [get_gaps] emits both. *)
Lemma get_gaps_emits_tie_and_stray :
  let candidate := [skill "python" "advanced"] in
  let required := [skill "python" "advanced"] in
  let w := answering [[gap " Python" "Advanced" "advanced"; gap "cobol" "none" "expert"]] in
  exists gaps,
    fst (get_gaps (profile candidate) required w) = Ok gaps
    /\ candidate = required
    /\ computeGaps candidate required = []
    /\ gaps <> []
    /\ (exists g, In g gaps /\ name_of g = "python"
                  /\ (ordinal (level_of g "required_level")
                      <= ordinal (candidate_level candidate (name_of g)))%Z
                  /\ level_of g "current_level" = level_of g "required_level")
    /\ (exists g, In g gaps /\ ~ In (name_of g) (map name_of required)).
Proof.
  eexists. split; [vm_compute; reflexivity|]. split; [reflexivity|].
  split; [reflexivity|]. split; [discriminate|]. split.
  - eexists. split; [left; reflexivity|]. vm_compute. repeat split. discriminate.
  - eexists. split; [right; left; reflexivity|]. vm_compute.
    intros [Heq|[]]. discriminate.
Qed.

(** C2, as stated, fails: two runs on identical inputs, one after the
    other, against a service whose second reply differs from its first. *)
Lemma get_gaps_two_runs_differ :
  let user_profile := profile [skill "python" "advanced"] in
  let required := [skill "python" "advanced"; skill "docker" "intermediate"] in
  let w := answering [[gap "docker" "none" "intermediate"]; []] in
  let first_run := get_gaps user_profile required w in
  let second_run := get_gaps user_profile required (snd first_run) in
  fst first_run = Ok [[("skill_name", "docker"); ("current_level", "none");
                       ("required_level", "intermediate")]]
  /\ fst second_run = Ok []
  /\ fst first_run <> fst second_run.
Proof.
  vm_compute. repeat split. discriminate.
Qed.

Lemma get_gaps_determined_by_reply_witness :
  let user_profile := profile [skill "python" "advanced"] in
  let required := [skill "docker" "intermediate"] in
  let w1 := answering [[gap "docker" "none" "intermediate"]; []] in
  let w2 := answering [[gap "docker" "none" "intermediate"]] in
  w1 <> w2
  /\ fst (get_gaps user_profile required w1) = fst (get_gaps user_profile required w2).
Proof.
  split; [discriminate|].
  apply (get_gaps_determined_by_reply
           (profile [skill "python" "advanced"]) [skill "docker" "intermediate"]).
  reflexivity.
Defined.

(** C3, as stated, fails: the service lists the two gaps in the reverse
    of the required order, and the gap sequence comes out reversed. *)
Lemma get_gaps_reorders :
  let candidate : list dict := [] in
  let required := [skill "docker" "intermediate"; skill "python" "advanced"] in
  let w := answering [[gap "python" "none" "advanced"; gap "docker" "none" "intermediate"]] in
  exists gaps,
    fst (get_gaps (profile candidate) required w) = Ok gaps
    /\ map name_of gaps = ["python"; "docker"]
    /\ map Design.skill_name (computeGaps candidate required) = ["docker"; "python"]
    /\ map name_of gaps <> map Design.skill_name (computeGaps candidate required).
Proof.
  eexists. split; [vm_compute; reflexivity|]. vm_compute. repeat split. discriminate.
Qed.

Lemma get_gaps_keeps_reply_order_witness :
  exists gaps,
    get_gaps (profile []) [skill "docker" "intermediate"; skill "python" "advanced"]
             (answering [[gap "python" "none" "advanced"; gap "docker" "none" "intermediate"]])
    = (Ok gaps, answering [])
    /\ forall i : nat,
         gaps !! i
         = gap_dict <$> ([gap "python" "none" "advanced";
                          gap "docker" "none" "intermediate"] !! i).
Proof.
  apply (get_gaps_keeps_reply_order
           (profile []) [skill "docker" "intermediate"; skill "python" "advanced"]
           (answering [[gap "python" "none" "advanced"; gap "docker" "none" "intermediate"]])
           (answering [])
           {| Gaps.skills := [gap "python" "none" "advanced";
                              gap "docker" "none" "intermediate"] |}).
  reflexivity.
Defined.

(** C4, as stated, fails: the report assembled from the gaps [get_gaps]
    returns has a [skill_gaps] entry, from none to expert, without any
    [gap_severity]. *)
Lemma report_gap_without_severity :
  let user_profile := profile [] in
  let required := [skill "docker" "expert"] in
  let w := answering [[gap "docker" "none" "expert"]] in
  exists gaps w1 report w2 entry,
    get_gaps user_profile required w = (Ok gaps, w1)
    /\ generate_report user_profile job required gaps w1 = (Ok report, w2)
    /\ In entry (Report.skill_gaps report)
    /\ distance (level_of entry "current_level") (level_of entry "required_level") = 4%Z
    /\ dict_get entry "gap_severity" = None.
Proof.
  eexists _, _, _, _, _. split; [vm_compute; reflexivity|].
  split; [vm_compute; reflexivity|].
  split; [left; reflexivity|]. vm_compute. split; reflexivity.
Qed.

(** C5, as stated, fails: two extracted records share the canonical name
    [python]; both come back, the lower level first. *)
Lemma get_requirements_keeps_duplicates :
  let reply := [ {| Skill.skill_name := " Python"; Skill.proficiency_level := "Beginner" |};
                 {| Skill.skill_name := "python "; Skill.proficiency_level := "expert" |} ] in
  fst (get_requirements "Python developer wanted." (extracting reply))
  = Ok [ skill "python" "beginner"; skill "python" "expert" ].
Proof. vm_compute. reflexivity. Qed.

End AnalyzerScenarios.

(** ** learning.py *)
Section LearningFacts.
Import Learning PyStr.
Context {U : PyStr.Unicode} {W : Type} `{Tutor W}.

Lemma count_app (p : event -> bool) (a b : list event) :
  count p (a ++ b) = count p a + count p b.
Proof. induction a as [|e a IH]; simpl; [reflexivity|]. rewrite IH. lia. Qed.

Lemma div5_step (n : nat) :
  S n / 5 = n / 5 + (if (S n mod 5 =? 0)%nat then 1 else 0).
Proof.
  pose proof (Nat.div_mod_eq n 5) as Hn.
  pose proof (Nat.div_mod_eq (S n) 5) as HSn.
  pose proof (Nat.mod_upper_bound n 5) as Hb.
  pose proof (Nat.mod_upper_bound (S n) 5) as HSb.
  destruct (Nat.eqb_spec (S n mod 5) 0); lia.
Qed.

(** The context fetch never raises: a failed request becomes the
    no-context sentence. The request is made in either case. *)
Lemma fetch_web_context_unfold (query : string) (s : State W) :
  fetch_web_context query s =
  match requests_get_text search_url query (world s) with
  | (r, w') =>
      (Ok (match r with Ok text => slice_to 1500 text | Raise _ => no_context end),
       {| world := w'; trace := trace s ++ [HttpGet search_url query]; self := self s |})
  end.
Proof.
  unfold fetch_web_context, try_except, bind, outside, ret, search_url.
  destruct (requests_get_text _ query (world s)) as [[text|e] w']; reflexivity.
Qed.

Lemma tutor_reply_unfold (user_input : string) (intro : bool) (s : State W) :
  let skill := fmt_opt (current_skill (self s)) in
  let query := skill +:+ " " +:+ user_input in
  tutor_reply user_input intro s =
  match requests_get_text search_url query (world s) with
  | (r, w1) =>
      let context := match r with Ok text => slice_to 1500 text | Raise _ => no_context end in
      let messages :=
        [SystemMessage (sys_prompt skill context);
         HumanMessage (if intro
                       then "Introduce " +:+ skill +:+ " and ask me a first warm-up question."
                       else user_input)] in
      match llm_content messages w1 with
      | (reply, w2) =>
          (reply, {| world := w2;
                     trace := trace s ++ [HttpGet search_url query; LLMCall messages];
                     self := self s |})
      end
  end.
Proof.
  intros skill query. unfold tutor_reply, bind, get.
  fold skill. fold query. rewrite fetch_web_context_unfold.
  destruct (requests_get_text search_url query (world s)) as [r w1].
  unfold outside. simpl.
  match goal with |- context [llm_content ?m w1] => destruct (llm_content m w1) as [reply w2] end.
  rewrite <- app_assoc. reflexivity.
Qed.

Lemma turn_unfold (user_input : string) (s : State W) :
  turn user_input s =
  match tutor_reply user_input false s with
  | (Ok reply, s1) =>
      let n := turn_count (self s1) + 1 in
      (Ok tt,
       {| world := world s1;
          trace := trace s1
                   ++ Print (("Tutor: " +:+ reply +:+ nl) +:+ nl)
                   :: (if (n mod 5 =? 0)%nat then [Print refresh_notice] else []);
          self := {| report_skill_gaps := report_skill_gaps (self s1);
                     turn_count := n;
                     current_skill := current_skill (self s1) |} |})
  | (Raise e, s1) => (Raise e, s1)
  end.
Proof.
  unfold turn, bind.
  destruct (tutor_reply user_input false s) as [[reply|e] s1]; [|reflexivity].
  unfold print, emit, modify, get, set_turn_count, update_info, print, emit, modify, ret.
  simpl. destruct (_ =? 0)%nat; simpl; [|reflexivity].
  rewrite <- app_assoc. reflexivity.
Qed.

Lemma tutor_line_not_refresh (reply : string) :
  is_refresh (Print (("Tutor: " +:+ reply +:+ nl) +:+ nl)) = false.
Proof. reflexivity. Qed.

(** What one turn adds: one fetch always; on success one counted turn and,
    when the new count is a multiple of five, one refresh notice. *)
Lemma turn_effect (user_input : string) (s : State W) :
  let out := turn user_input s in
  count is_fetch (trace (snd out)) = count is_fetch (trace s) + 1
  /\ match fst out with
     | Ok _ =>
         turn_count (self (snd out)) = S (turn_count (self s))
         /\ count is_refresh (trace (snd out)) + turn_count (self s) / 5
            = count is_refresh (trace s) + S (turn_count (self s)) / 5
     | Raise _ =>
         self (snd out) = self s
         /\ count is_refresh (trace (snd out)) = count is_refresh (trace s)
     end.
Proof.
  intros out. subst out. rewrite turn_unfold.
  pose proof (tutor_reply_unfold user_input false s) as Hreply.
  cbv zeta in Hreply. rewrite Hreply. clear Hreply.
  destruct (requests_get_text _ _ (world s)) as [r w1].
  match goal with |- context [llm_content ?m w1] => destruct (llm_content m w1) as [[reply|e] w2] end;
    cbv zeta; cbn [fst snd trace self turn_count].
  - rewrite Nat.add_1_r, (div5_step (turn_count (self s))).
    rewrite !count_app. cbn [count is_fetch]. rewrite tutor_line_not_refresh.
    destruct (_ =? 0)%nat; cbn [count is_fetch is_refresh];
      rewrite ?String.eqb_refl; repeat split; lia.
  - rewrite !count_app. cbn [count is_fetch is_refresh]. repeat split; lia.
Qed.

Lemma run_loop_cons (user_input : string) (rest : list string) (s : State W) :
  run_loop (user_input :: rest) s =
  let s0 := {| world := world s;
               trace := trace s ++ [Input "You: " user_input];
               self := self s |} in
  if String.eqb (strip (lower user_input)) "exit"
  then print "Tutor: Good session. Go practice and come back later." s0
  else bind (turn user_input) (fun _ => run_loop rest) s0.
Proof.
  cbn [run_loop]. unfold bind at 1. unfold emit, modify.
  destruct (String.eqb _ "exit"); reflexivity.
Qed.

(** C6 (amended): web context is fetched in every turn of the session,
    whatever the turn count: a session adds one fetch per counted turn
    (and one more when its last turn fails at the model). What happens
    every fifth turn is the call of [update_info]: its notice appears
    exactly when the incremented turn count reaches a multiple of five. *)
Theorem run_loop_fetches_every_turn (inputs : list string) (s : State W) :
  let out := run_loop inputs s in
  exists turns failed : nat,
    turn_count (self (snd out)) = turn_count (self s) + turns
    /\ count is_fetch (trace (snd out)) = count is_fetch (trace s) + turns + failed
    /\ failed <= 1
    /\ (fst out = Ok tt -> failed = 0)
    /\ count is_refresh (trace (snd out)) + turn_count (self s) / 5
       = count is_refresh (trace s) + (turn_count (self s) + turns) / 5.
Proof.
  revert s. induction inputs as [|user_input rest IH]; intros s out; subst out.
  - exists 0, 0. cbn [run_loop]. unfold bind, emit, modify, raise.
    cbn [fst snd trace self]. rewrite !count_app, !Nat.add_0_r.
    cbn [count is_fetch]. change (is_refresh (Print "You: ")) with false.
    repeat split; try lia; discriminate.
  - rewrite run_loop_cons. cbv zeta.
    set (s0 := {| world := world s;
                  trace := trace s ++ [Input "You: " user_input];
                  self := self s |}).
    assert (Hf0 : count is_fetch (trace s0) = count is_fetch (trace s))
      by (subst s0; cbn [trace]; rewrite count_app; cbn [count is_fetch]; lia).
    assert (Hr0 : count is_refresh (trace s0) = count is_refresh (trace s))
      by (subst s0; cbn [trace]; rewrite count_app; cbn [count is_refresh]; lia).
    assert (Hs0 : self s0 = self s) by reflexivity.
    clearbody s0.
    destruct (String.eqb (strip (lower user_input)) "exit").
    + exists 0, 0. unfold print, emit, modify. cbn [fst snd trace self].
      rewrite !count_app, !Nat.add_0_r. cbn [count is_fetch].
      rewrite Hs0. repeat split; lia.
    + unfold bind.
      pose proof (turn_effect user_input s0) as [Hfetch Hturn].
      destruct (turn user_input s0) as [[[]|e] s1]; cbn [fst snd] in Hfetch, Hturn |- *.
      * destruct Hturn as [Hcount Hrefresh].
        destruct (IH s1) as (turns & failed & Ht & Hf & Hle & Hok & Hr).
        exists (S turns), failed. rewrite Hs0 in *.
        replace (turn_count (self s) + S turns) with (turn_count (self s1) + turns) by lia.
        rewrite Hcount in *.
        repeat split; try assumption; lia.
      * destruct Hturn as [Hself Hrefresh].
        exists 0, 1. rewrite Hself, Hs0, !Nat.add_0_r.
        repeat split; try lia; discriminate.
Qed.

(** C9: when the web request raises, [fetch_web_context] returns the
    sentence [No external context available right now.] instead of raising,
    and [tutor_reply] goes on: it asks the model with a system prompt that
    ends in that sentence under [Web Context:], and hands back whatever the
    model answers. *)
Theorem tutor_reply_survives_fetch_failure
    (user_input : string) (intro : bool) (s : State W) (e : exn) (w1 : W) :
  let skill := match current_skill (self s) with Some name => name | None => "None" end in
  let query := skill +:+ " " +:+ user_input in
  let messages :=
    [SystemMessage
       ("You are a strict but helpful tutor. "
        +:+ "The student is learning '" +:+ skill +:+ "'. "
        +:+ "Use the context below + conversation to explain clearly. "
        +:+ "Ask questions, give examples, and test the student often. "
        +:+ "Be assertive and structured." +:+ nl +:+ nl
        +:+ "Web Context:" +:+ nl +:+ "No external context available right now.");
     HumanMessage (if intro
                   then "Introduce " +:+ skill +:+ " and ask me a first warm-up question."
                   else user_input)] in
  requests_get_text "https://duckduckgo.com/html/" query (world s) = (Raise e, w1) ->
  fst (fetch_web_context query s) = Ok "No external context available right now."
  /\ fst (tutor_reply user_input intro s) = fst (llm_content messages w1)
  /\ trace (snd (tutor_reply user_input intro s))
     = trace s ++ [HttpGet "https://duckduckgo.com/html/" query; LLMCall messages]
  /\ self (snd (tutor_reply user_input intro s)) = self s.
Proof.
  intros skill query messages Hfail.
  pose proof (tutor_reply_unfold user_input intro s) as Hreply. simpl in Hreply.
  change (fmt_opt (current_skill (self s))) with skill in Hreply.
  fold query in Hreply. unfold search_url in Hreply.
  rewrite fetch_web_context_unfold. unfold search_url.
  rewrite Hreply, Hfail. clear Hreply. simpl.
  change (sys_prompt skill no_context)
    with (match messages with SystemMessage text :: _ => text | _ => "" end).
  change (SystemMessage (match messages with SystemMessage text :: _ => text | _ => "" end)
          :: HumanMessage (if intro
                           then "Introduce " +:+ skill +:+ " and ask me a first warm-up question."
                           else user_input) :: nil)
    with messages.
  destruct (llm_content messages w1) as [reply w2]. simpl.
  repeat split.
Qed.

End LearningFacts.

(** ** teacher.py *)
Section TeacherFacts.
Import Teacher PyStr.
Context {U : PyStr.Unicode} {W : Type} `{Agent W}.

Lemma serialize_chat_ok (msgs : list message) (s : State W) :
  exists entries w', serialize_chat msgs s = (Ok entries, with_world w' s).
Proof.
  revert s. induction msgs as [|msg rest IH]; intros s.
  - exists [], (world s). destruct s; reflexivity.
  - cbn [serialize_chat]. unfold bind, outside, now.
    destruct (strftime_now (world s)) as [t w1].
    destruct (IH (with_world w1 s)) as (entries & w2 & Hrest).
    cbn [world files self with_world] in *. unfold with_world at 1 in Hrest.
    cbn [world files self] in Hrest. rewrite Hrest.
    eexists _, w2. reflexivity.
Qed.

Ltac run_attrs :=
  unfold attr, bind, get, need, ret, raise;
  cbn [self world files user_name job_role job_proficiency teaching_skill
       teaching_proficiency chat_history chat_init session_timestamp
       with_world with_files fst snd].

Ltac run_serialize :=
  match goal with
  | |- context [serialize_chat ?h ?st] =>
      let entries := fresh "entries" in
      let w' := fresh "w'" in
      let Hs := fresh "Hs" in
      destruct (serialize_chat_ok h st) as (entries & w' & Hs);
      rewrite Hs; clear Hs
  end.

(** Building the record touches neither the attributes nor the files. *)
Lemma history_data_frame (s : State W) :
  files (snd (history_data s)) = files s /\ self (snd (history_data s)) = self s.
Proof.
  destruct s as [w f [ts [un|] [jr|] [jp|] [tsk|] [tp|] [ch|] ci]];
    unfold history_data; run_attrs; try (split; reflexivity);
    run_serialize; run_attrs; split; reflexivity.
Qed.

Lemma history_data_ok (s : State W) :
  attributes_set (self s) = true ->
  exists data w', history_data s = (Ok data, with_world w' s).
Proof.
  destruct s as [w f [ts [un|] [jr|] [jp|] [tsk|] [tp|] [ch|] ci]];
    try discriminate.
  intros _. unfold history_data. run_attrs. run_serialize. run_attrs.
  eexists _, _. reflexivity.
Qed.

Lemma open_then_write (text : string) (s : State W) :
  bind (open_w history_json) (fun _ => write history_json text) s
  = (Ok tt, with_files (<[history_json := text]> (files s)) s).
Proof.
  unfold open_w, write, set_files, modify, get, bind, with_files.
  cbn [world files self]. now rewrite alter_insert_eq.
Qed.

Lemma save_history_unfold (s : State W) :
  save_history s =
  match history_data s with
  | (Ok data, s1) =>
      (Ok tt, with_files (<[history_json := Json.dumps data 4]> (files s1)) s1)
  | (Raise e, s1) => (Raise e, s1)
  end.
Proof.
  unfold save_history. unfold bind at 1.
  destruct (history_data s) as [[data|e] s1]; [|reflexivity].
  apply open_then_write.
Qed.

Lemma save_history_stopped_unfold (point : stop) (s : State W) :
  save_history_stopped point s =
  match history_data s with
  | (Ok data, s1) =>
      match point with
      | BeforeOpen => (Ok tt, s1)
      | AfterOpen k =>
          (Ok tt, with_files (<[history_json := slice_to k (Json.dumps data 4)]> (files s1)) s1)
      end
  | (Raise e, s1) => (Raise e, s1)
  end.
Proof.
  unfold save_history_stopped. unfold bind at 1.
  destruct (history_data s) as [[data|e] s1]; [|reflexivity].
  destruct point as [|k]; [reflexivity|]. apply open_then_write.
Qed.

(** C8 (amended): [save_history] rewrites [history.json] in place: opening
    the file for writing empties it, and the serialized session is written
    after that. When the call returns the file holds the complete record;
    a process that stops in between leaves in the file the first [k]
    characters of the new record, for whatever [k] it got to, and the
    record saved before is no longer there. Stopping before the file is
    opened leaves it as it was. *)
Theorem save_history_rewrites_in_place (s s1 : State W) (data : Json.json) :
  history_data s = (Ok data, s1) ->
  save_history s
  = (Ok tt, with_files (<[history_json := Json.dumps data 4]> (files s)) s1)
  /\ self s1 = self s
  /\ (forall k : nat,
        stored (snd (save_history_stopped (AfterOpen k) s))
        = Some (slice_to k (Json.dumps data 4)))
  /\ stored (snd (save_history_stopped BeforeOpen s)) = stored s.
Proof.
  intros Hdata. pose proof (history_data_frame s) as [Hfiles Hself].
  rewrite Hdata in Hfiles, Hself. cbn [snd] in Hfiles, Hself.
  rewrite save_history_unfold, Hdata, Hfiles. split; [reflexivity|].
  split; [assumption|]. split.
  - intros k. rewrite save_history_stopped_unfold, Hdata.
    unfold stored, with_files. cbn [snd files]. apply lookup_insert_eq.
  - rewrite save_history_stopped_unfold, Hdata. unfold stored. cbn [snd].
    now rewrite Hfiles.
Qed.

Lemma make_config_frame (s : State W) : snd (make_config s) = s.
Proof.
  unfold make_config, attr, bind, get, need, ret, raise.
  destruct (user_name (self s)); [|reflexivity].
  destruct (job_role (self s)); [|reflexivity].
  destruct (job_proficiency (self s)); [|reflexivity].
  destruct (teaching_skill (self s)); [|reflexivity].
  destruct (teaching_proficiency (self s)); reflexivity.
Qed.

Ltac run_method :=
  unfold outside, last_message, append_chat, set_self, set_chat_init, set_files, modify;
  run_attrs.

Ltac run_save :=
  rewrite save_history_unfold;
  match goal with
  | |- context [history_data ?st] =>
      let data := fresh "data" in
      let w' := fresh "w'" in
      let Hd := fresh "Hd" in
      destruct (history_data_ok st eq_refl) as (data & w' & Hd);
      rewrite Hd; clear Hd
  end;
  run_attrs.

(** C10: while [chat_init] is false, [chat] raises [RuntimeError] and the
    whole state, the outside world included, is as before: nothing was
    asked of the agent, appended or saved. Once [init_chat] has returned,
    [chat_init] is true and [chat] goes through: it asks the agent with the
    user's message, and when the agent answers it appends the message and
    the answer, saves, and returns the answer's text. *)
Theorem chat_requires_init_chat (s : State W) (said : string) :
  chat_init (self s) = false ->
  chat said s = (Raise (RuntimeError "Init chat model first"), s)
  /\ forall (first reply : string) (s1 : State W),
       init_chat first s = (Ok reply, s1) ->
       chat_init (self s1) = true
       /\ exists config,
            make_config s1 = (Ok config, s1)
            /\ forall (msgs : list message) (answer : message) (w2 : W),
                 agent_invoke [HumanMessage said] config (world s1) = (Ok msgs, w2) ->
                 last msgs = Some answer ->
                 exists s2,
                   chat said s1 = (Ok (content answer), s2)
                   /\ chat_history (self s2)
                      = (fun h => h ++ [HumanMessage said; answer])
                          <$> chat_history (self s1)
                   /\ exists record, stored s2 = Some record.
Proof.
  intros Hgate. split.
  { unfold chat, bind, get. rewrite Hgate. reflexivity. }
  intros first reply s1.
  destruct s as [w f [ts [un|] [jr|] [jp|] [tsk|] [tp|] [ch|] ci]];
    unfold init_chat, make_config; run_method; try discriminate.
  destruct (agent_invoke _ _ w) as [[msgs0|e0] w1]; run_method; [|discriminate].
  destruct (last msgs0) as [answer0|]; run_method; [|discriminate].
  run_save. intros Hdone. injection Hdone as _ <-.
  split; [reflexivity|].
  eexists. split; [unfold make_config; run_method; reflexivity|].
  intros msgs answer w2 Hagent Hlast. cbn [world] in Hagent.
  unfold chat, make_config. run_method. rewrite Hagent. run_method.
  rewrite Hlast. run_method. run_save.
  eexists. split; [reflexivity|]. run_attrs. split.
  - now rewrite <- app_assoc.
  - eexists. unfold stored. cbn [files]. apply lookup_insert_eq.
Qed.

End TeacherFacts.

(** ** A turn whose completion call fails *)
Section FailedTurn.
Context {U : PyStr.Unicode} {W1 : Type} `{Teacher.Agent W1} {W2 : Type} `{Learning.Tutor W2}.

(** C7: when the completion call of a turn raises, the turn raises the
    same error to its caller and the session is as before the turn. In
    [Teacher.chat] no message is appended to [chat_history] and
    [history.json] is not written: attributes and files are unchanged. In
    the tutor loop ([tutor_reply] raises only when the model call does)
    the turn is not counted: [turn_count] and the other attributes are
    unchanged. *)
Theorem failed_completion_leaves_session
    (s : Teacher.State W1) (said : string) (config : Teacher.Config.t)
    (e : exn) (w' : W1)
    (p p' : Learning.State W2) (user_input : string) (e' : exn) :
  Teacher.chat_init (Teacher.self s) = true ->
  Teacher.make_config s = (Ok config, s) ->
  Teacher.agent_invoke [HumanMessage said] config (Teacher.world s) = (Raise e, w') ->
  Learning.tutor_reply user_input false p = (Raise e', p') ->
  (Teacher.chat said s = (Raise e, Teacher.with_world w' s)
   /\ Teacher.self (snd (Teacher.chat said s)) = Teacher.self s
   /\ Teacher.files (snd (Teacher.chat said s)) = Teacher.files s)
  /\ (Learning.turn user_input p = (Raise e', p')
      /\ Learning.self p' = Learning.self p).
Proof.
  intros Hinit Hconfig Hagent Htutor.
  assert (Hchat : Teacher.chat said s = (Raise e, Teacher.with_world w' s)).
  { unfold Teacher.chat. unfold bind at 1, get. rewrite Hinit.
    unfold bind at 1. rewrite Hconfig.
    unfold bind at 1, Teacher.outside. rewrite Hagent. reflexivity. }
  split.
  - rewrite Hchat. repeat split.
  - split.
    + rewrite turn_unfold, Htutor. reflexivity.
    + pose proof (tutor_reply_unfold user_input false p) as Hreply.
      cbv zeta in Hreply. rewrite Htutor in Hreply.
      destruct (Learning.requests_get_text _ _ (Learning.world p)) as [r w1].
      match type of Hreply with
      | context [Learning.llm_content ?m w1] =>
          destruct (Learning.llm_content m w1) as [reply w2]
      end.
      injection Hreply as _ ->. reflexivity.
Qed.

End FailedTurn.

(** ** Sessions run on the stand-in collaborators *)
Section Sessions.
Import Fixtures PyStr.
#[local] Existing Instance plain_text.

(** C6, as stated, fails: in a session of twelve turns the web context is
    fetched in the introduction and in every one of the twelve turns, the
    first of them at turn count 0; turns 5 and 10 are where the refresh
    notice of [update_info] appears. *)
Lemma twelve_turn_session_fetches_every_turn :
  let out := Learning.run twelve_turns (classroom up_desk 0) in
  fst out = Ok tt
  /\ Learning.turn_count (Learning.self (snd out)) = 12
  /\ Learning.turns_where Learning.is_fetch 0 (Learning.trace (snd out))
     = [0; 1; 2; 3; 4; 5; 6; 7; 8; 9; 10; 11; 12]
  /\ Learning.turns_where Learning.is_fetch 0 (Learning.trace (snd out)) <> [5; 10]
  /\ Learning.turns_where Learning.is_refresh 0 (Learning.trace (snd out)) = [5; 10].
Proof. vm_compute. repeat split. discriminate. Qed.

Lemma tutor_reply_survives_fetch_failure_witness :
  let s := classroom {| web_up := false; llm_up := true |} 3 in
  fst (Learning.fetch_web_context "docker What is an image?" s)
  = Ok "No external context available right now."
  /\ fst (Learning.tutor_reply "What is an image?" false s) = Ok "Noted."
  /\ Learning.trace (snd (Learning.tutor_reply "What is an image?" false s))
     = [Learning.HttpGet "https://duckduckgo.com/html/" "docker What is an image?";
        Learning.LLMCall
          [SystemMessage
             ("You are a strict but helpful tutor. The student is learning 'docker'. "
              +:+ "Use the context below + conversation to explain clearly. "
              +:+ "Ask questions, give examples, and test the student often. "
              +:+ "Be assertive and structured." +:+ nl +:+ nl
              +:+ "Web Context:" +:+ nl +:+ "No external context available right now.");
           HumanMessage "What is an image?"]].
Proof.
  pose proof (tutor_reply_survives_fetch_failure
                "What is an image?" false
                (classroom {| web_up := false; llm_up := true |} 3)
                (ExternalError "ConnectionError")
                {| web_up := false; llm_up := true |}) as Hthm.
  destruct (Hthm eq_refl) as (Hfetch & Hreply & Htrace & _).
  split; [exact Hfetch|]. split; [exact Hreply | exact Htrace].
Defined.

Lemma failed_completion_leaves_session_witness :
  let s := session false true ∅ in
  let p := classroom {| web_up := true; llm_up := false |} 4 in
  (fst (Teacher.chat "What is a container?" s) = Raise unavailable
   /\ Teacher.self (snd (Teacher.chat "What is a container?" s)) = pupil true
   /\ Teacher.files (snd (Teacher.chat "What is a container?" s)) = ∅)
  /\ fst (Learning.turn "What is a container?" p) = Raise unavailable
  /\ Learning.turn_count (Learning.self (snd (Learning.turn "What is a container?" p))) = 4.
Proof.
  intros s p.
  pose proof (failed_completion_leaves_session
                s "What is a container?"
                {| Teacher.Config.thread_id := "1";
                   Teacher.Config.user_name := "Ada";
                   Teacher.Config.job_role := "Backend Engineer";
                   Teacher.Config.job_proficiency := Intermediate;
                   Teacher.Config.teaching_skill := "docker";
                   Teacher.Config.teaching_proficiency := Advanced;
                   Teacher.Config.session_timestamp := "2025-01-01 09:00:00" |}
                unavailable (Teacher.world s)
                p (snd (Learning.tutor_reply "What is a container?" false p))
                "What is a container?" unavailable) as Hthm.
  destruct Hthm as [(Hchat & Hself & Hfiles) (Hturn & Hcount)];
    [reflexivity | reflexivity | reflexivity | reflexivity |].
  split; [split; [now rewrite Hchat | split; [exact Hself | exact Hfiles]]|].
  split; [now rewrite Hturn | rewrite Hturn; cbn [snd]; now rewrite Hcount].
Defined.

(** C8, as stated, fails: a session is saved, two messages are appended,
    and the next save stops twelve characters into the file. A reader now
    finds those twelve characters: not the record saved before, not the
    new record, and not a missing file. *)
Lemma interrupted_save_leaves_torn_record :
  let saved := snd (Teacher.chat "What is a container?" (session true true ∅)) in
  let grown :=
    snd (bind (Teacher.append_chat (HumanMessage "And an image?"))
              (fun _ => Teacher.append_chat (AIMessage "A template."))
              saved) in
  let torn := snd (Teacher.save_history_stopped (Teacher.AfterOpen 12) grown) in
  let whole := snd (Teacher.save_history grown) in
  Teacher.stored torn = Some ("{" +:+ nl +:+ "    " +:+ dq +:+ "times")
  /\ Teacher.stored torn <> Teacher.stored saved
  /\ Teacher.stored torn <> Teacher.stored whole
  /\ Teacher.stored torn <> None
  /\ is_Some (Teacher.stored saved) /\ is_Some (Teacher.stored whole).
Proof.
  vm_compute. repeat split; try discriminate; eexists; reflexivity.
Qed.

Lemma save_history_rewrites_in_place_witness :
  let s := session true true {[ Teacher.history_json := "{}" ]} in
  Teacher.stored s = Some "{}"
  /\ fst (Teacher.save_history s) = Ok tt
  /\ Teacher.stored (snd (Teacher.save_history_stopped (Teacher.AfterOpen 0) s)) = Some ""
  /\ Teacher.stored (snd (Teacher.save_history_stopped Teacher.BeforeOpen s)) = Some "{}".
Proof.
  intros s.
  pose proof (save_history_rewrites_in_place
                s (snd (Teacher.history_data s)) pupil_record) as Hthm.
  destruct Hthm as (Hsave & _ & Hstop & Hbefore); [reflexivity|].
  split; [reflexivity|]. split; [now rewrite Hsave|].
  split; [now rewrite (Hstop 0)|]. now rewrite Hbefore.
Defined.

Lemma chat_requires_init_chat_witness :
  let s := session true false ∅ in
  fst (Teacher.chat "What is a container?" s)
  = Raise (RuntimeError "Init chat model first")
  /\ snd (Teacher.chat "What is a container?" s) = s
  /\ (let s1 := snd (Teacher.init_chat Teacher.default_message s) in
      fst (Teacher.init_chat Teacher.default_message s) = Ok "Let us begin."
      /\ Teacher.chat_init (Teacher.self s1) = true
      /\ fst (Teacher.chat "What is a container?" s1) = Ok "Let us begin.").
Proof.
  intros s.
  pose proof (chat_requires_init_chat s "What is a container?") as Hthm.
  destruct Hthm as [Hgate Hafter]; [reflexivity|].
  split; [now rewrite Hgate|]. split; [now rewrite Hgate|].
  intros s1.
  destruct (Hafter Teacher.default_message "Let us begin." s1)
    as (Hinit & config & Hconfig & Hchat); [reflexivity|].
  split; [reflexivity|]. split; [exact Hinit|].
  destruct (Hchat [HumanMessage "What is a container?"; AIMessage "Let us begin."]
                  (AIMessage "Let us begin.") (Teacher.world s1))
    as (s2 & Hgo & _).
  - assert (Hc : fst (Teacher.make_config s1) = Ok config) by now rewrite Hconfig.
    vm_compute in Hc. injection Hc as <-. reflexivity.
  - reflexivity.
  - now rewrite Hgo.
Defined.

End Sessions.

(** * Further properties *)

(** ** Python strings *)
Section StringFacts.
Import PyStr.

Lemma append_cons (c : ascii) (a b : string) : String c a +:+ b = String c (a +:+ b).
Proof. reflexivity. Qed.

Lemma append_nil_l (s : string) : "" +:+ s = s.
Proof. reflexivity. Qed.

Lemma append_nil_r (s : string) : s +:+ "" = s.
Proof. induction s as [|c s IH]; [reflexivity|]. now rewrite append_cons, IH. Qed.

Lemma append_assoc (a b c : string) : (a +:+ b) +:+ c = a +:+ (b +:+ c).
Proof. induction a as [|x a IH]; [reflexivity|]. now rewrite !append_cons, IH. Qed.

Lemma rev_app_append (s1 s2 : string) : String.rev_app s1 s2 = String.rev s1 +:+ s2.
Proof.
  unfold String.rev. revert s2. induction s1 as [|c s1 IH]; intros s2; [reflexivity|].
  cbn [String.rev_app]. rewrite IH, (IH (String c "")), append_assoc. reflexivity.
Qed.

Lemma rev_cons (c : ascii) (s : string) :
  String.rev (String c s) = String.rev s +:+ String c "".
Proof. unfold String.rev at 1. cbn [String.rev_app]. apply rev_app_append. Qed.

Lemma rev_append (a b : string) : String.rev (a +:+ b) = String.rev b +:+ String.rev a.
Proof.
  induction a as [|c a IH].
  - rewrite append_nil_l. change (String.rev "") with "". now rewrite append_nil_r.
  - rewrite append_cons, !rev_cons, IH, append_assoc. reflexivity.
Qed.

Lemma rev_involutive (s : string) : String.rev (String.rev s) = s.
Proof.
  induction s as [|c s IH]; [reflexivity|].
  rewrite rev_cons, rev_append, IH. reflexivity.
Qed.

Lemma lstrip_append (a b : string) :
  lstrip (a +:+ b) = match lstrip a with "" => lstrip b | r => r +:+ b end.
Proof.
  induction a as [|c a IH]; [reflexivity|].
  rewrite append_cons. cbn [lstrip].
  destruct (isspace c); [exact IH | reflexivity].
Qed.

(** [rstrip], read from the front of the string. *)
Lemma rstrip_cons (c : ascii) (s : string) :
  rstrip (String c s) =
  match rstrip s with
  | "" => if isspace c then "" else String c ""
  | r => String c r
  end.
Proof.
  unfold rstrip. rewrite rev_cons, lstrip_append.
  destruct (lstrip (String.rev s)) as [|x r] eqn:Hs.
  - cbn [lstrip]. destruct (isspace c); reflexivity.
  - rewrite rev_append. change (String.rev (String c "")) with (String c "").
    rewrite append_cons, append_nil_l.
    destruct (String.rev (String x r)) eqn:Hrev; [|reflexivity].
    apply (f_equal String.rev) in Hrev. rewrite rev_involutive in Hrev. discriminate.
Qed.

Lemma rstrip_nil : rstrip "" = "".
Proof. reflexivity. Qed.

Lemma rstrip_idempotent (s : string) : rstrip (rstrip s) = rstrip s.
Proof.
  induction s as [|c s IH]; [reflexivity|].
  rewrite rstrip_cons. destruct (rstrip s) as [|x r] eqn:Hs.
  - destruct (isspace c) eqn:Hc; [reflexivity|].
    rewrite rstrip_cons, rstrip_nil, Hc. reflexivity.
  - rewrite rstrip_cons, IH. reflexivity.
Qed.

Lemma lstrip_idempotent (s : string) : lstrip (lstrip s) = lstrip s.
Proof.
  induction s as [|c s IH]; [reflexivity|].
  cbn [lstrip]. destruct (isspace c) eqn:Hc; [exact IH|].
  cbn [lstrip]. now rewrite Hc.
Qed.

(** What [lstrip] returns is empty or begins with a character that is not
    white space. *)
Lemma lstrip_head (s : string) :
  match lstrip s with "" => True | String c _ => isspace c = false end.
Proof.
  induction s as [|c s IH]; [exact I|].
  cbn [lstrip]. destruct (isspace c) eqn:Hc; [exact IH | exact Hc].
Qed.

Lemma lstrip_rstrip_of_stripped (t : string) :
  match t with "" => True | String c _ => isspace c = false end ->
  lstrip (rstrip t) = rstrip t.
Proof.
  destruct t as [|c t]; [reflexivity|]. intros Hc.
  rewrite rstrip_cons. destruct (rstrip t); rewrite ?Hc; cbn [lstrip]; now rewrite Hc.
Qed.

Lemma strip_idempotent (s : string) : ascii_strip (ascii_strip s) = ascii_strip s.
Proof.
  unfold ascii_strip. rewrite (lstrip_rstrip_of_stripped (lstrip s) (lstrip_head s)).
  apply rstrip_idempotent.
Qed.

Lemma isspace_lower_char (c : ascii) : isspace (lower_char c) = isspace c.
Proof. destruct c as [[] [] [] [] [] [] [] []]; reflexivity. Qed.

Lemma lower_char_idempotent (c : ascii) : lower_char (lower_char c) = lower_char c.
Proof. destruct c as [[] [] [] [] [] [] [] []]; reflexivity. Qed.

Lemma lower_idempotent (s : string) : ascii_lower (ascii_lower s) = ascii_lower s.
Proof.
  induction s as [|c s IH]; [reflexivity|].
  cbn [ascii_lower]. now rewrite lower_char_idempotent, IH.
Qed.

Lemma lstrip_lower (s : string) : lstrip (ascii_lower s) = ascii_lower (lstrip s).
Proof.
  induction s as [|c s IH]; [reflexivity|].
  cbn [ascii_lower lstrip]. rewrite isspace_lower_char.
  destruct (isspace c); [exact IH | reflexivity].
Qed.

Lemma rstrip_lower (s : string) : rstrip (ascii_lower s) = ascii_lower (rstrip s).
Proof.
  induction s as [|c s IH]; [reflexivity|].
  cbn [ascii_lower]. rewrite !rstrip_cons, IH, isspace_lower_char.
  destruct (rstrip s); cbn [ascii_lower]; [destruct (isspace c)|]; reflexivity.
Qed.

Lemma strip_lower (s : string) : ascii_strip (ascii_lower s) = ascii_lower (ascii_strip s).
Proof. unfold ascii_strip. now rewrite lstrip_lower, rstrip_lower. Qed.

Lemma isascii_append (a b : string) : isascii (a +:+ b) = isascii a && isascii b.
Proof.
  induction a as [|c a IH]; [now rewrite append_nil_l|].
  rewrite append_cons. cbn [isascii]. now rewrite IH, andb_assoc.
Qed.

Lemma isascii_rev (s : string) : isascii (String.rev s) = isascii s.
Proof.
  induction s as [|c s IH]; [reflexivity|].
  rewrite rev_cons, isascii_append, IH. cbn [isascii].
  rewrite andb_true_r. apply andb_comm.
Qed.

Lemma isascii_lstrip (s : string) : isascii s = true -> isascii (lstrip s) = true.
Proof.
  induction s as [|c s IH]; [reflexivity|].
  intros Hs. cbn [lstrip]. destruct (isspace c); [|exact Hs].
  cbn [isascii] in Hs. apply andb_true_iff in Hs as [_ Hs]. now apply IH.
Qed.

Lemma isascii_strip (s : string) : isascii s = true -> isascii (ascii_strip s) = true.
Proof.
  intros Hs. unfold ascii_strip, rstrip.
  rewrite isascii_rev. apply isascii_lstrip. rewrite isascii_rev.
  now apply isascii_lstrip.
Qed.

Lemma lower_char_ascii (c : ascii) :
  (nat_of_ascii (lower_char c) <? 128)%nat = (nat_of_ascii c <? 128)%nat.
Proof. destruct c as [[] [] [] [] [] [] [] []]; reflexivity. Qed.

Lemma isascii_lower (s : string) : isascii (ascii_lower s) = isascii s.
Proof.
  induction s as [|c s IH]; [reflexivity|].
  cbn [ascii_lower isascii]. now rewrite lower_char_ascii, IH.
Qed.

Lemma strip_of_ascii {U : Unicode} (s : string) :
  isascii s = true -> strip s = ascii_strip s.
Proof. unfold strip. now intros ->. Qed.

Lemma lower_of_ascii {U : Unicode} (s : string) :
  isascii s = true -> lower s = ascii_lower s.
Proof. unfold lower. now intros ->. Qed.

(** On ASCII text normalising twice is normalising once. *)
Lemma normalised_twice {U : Unicode} (x : string) :
  isascii x = true -> lower (strip (lower (strip x))) = lower (strip x).
Proof.
  intros Hx. pose proof (isascii_strip x Hx) as Hs.
  assert (Hl : isascii (ascii_lower (ascii_strip x)) = true)
    by now rewrite isascii_lower.
  rewrite (strip_of_ascii x Hx), (lower_of_ascii _ Hs), (strip_of_ascii _ Hl).
  rewrite (lower_of_ascii _ (isascii_strip _ Hl)).
  now rewrite strip_lower, strip_idempotent, lower_idempotent.
Qed.

End StringFacts.

(** ** learning.py: the console dialogue *)
Section ConsoleFacts.
Import Learning PyStr Console.
Context {U : PyStr.Unicode} {W : Type} `{Tutor W}.

Lemma slice_to_cons (n : nat) (c : ascii) (s : string) :
  slice_to n (String c s)
  = if continues c then String c (slice_to n s)
    else match n with
         | O => ""
         | S n' => String c (slice_to n' s)
         end.
Proof. reflexivity. Qed.

Lemma slice_to_length (n : nat) (s : string) : len (slice_to n s) <= n.
Proof.
  revert n. induction s as [|c s IH]; intros n; [cbv; lia|].
  rewrite slice_to_cons. destruct (continues c) eqn:Hc.
  - cbn [len]. rewrite Hc. apply IH.
  - destruct n as [|n]; [cbv; lia|].
    cbn [len]. rewrite Hc. specialize (IH n). lia.
Qed.

Lemma slice_to_prefix (n : nat) (s : string) : exists rest, s = slice_to n s +:+ rest.
Proof.
  revert n. induction s as [|c s IH]; intros n; [exists ""; reflexivity|].
  rewrite slice_to_cons. destruct (continues c).
  - destruct (IH n) as [rest Hrest]. exists rest.
    rewrite append_cons. now rewrite <- Hrest.
  - destruct n as [|n]; [exists (String c s); reflexivity|].
    destruct (IH n) as [rest Hrest]. exists rest.
    rewrite append_cons. now rewrite <- Hrest.
Qed.

(** Whatever the web returns, [fetch_web_context] returns normally after
    one request and leaves the attributes alone. When the request returned
    a page, the context is the first 1500 characters of its text; when the
    request raised, it is the sentence [No external context available right
    now.]. In both cases it has at most 1500 characters. *)
Theorem fetch_web_context_bounded (query : string) (s : State W) :
  exists context s',
    fetch_web_context query s = (Ok context, s')
    /\ len context <= 1500
    /\ self s' = self s
    /\ trace s' = trace s ++ [HttpGet "https://duckduckgo.com/html/" query]
    /\ (forall text w',
          requests_get_text "https://duckduckgo.com/html/" query (world s) = (Ok text, w') ->
          context = slice_to 1500 text /\ exists rest, text = context +:+ rest)
    /\ (forall e w',
          requests_get_text "https://duckduckgo.com/html/" query (world s) = (Raise e, w') ->
          context = "No external context available right now.").
Proof.
  rewrite fetch_web_context_unfold. unfold search_url.
  destruct (requests_get_text _ query (world s)) as [[text|e] w1].
  - eexists _, _. split; [reflexivity|]. split; [apply slice_to_length|].
    split; [reflexivity|]. split; [reflexivity|]. split; [|discriminate].
    intros text' w' [= <- _]. split; [reflexivity | apply slice_to_prefix].
  - eexists _, _. split; [reflexivity|].
    split; [apply Nat.leb_le; vm_compute; reflexivity|].
    split; [reflexivity|]. split; [reflexivity|]. split; [discriminate|].
    intros e' w' _. reflexivity.
Qed.

End ConsoleFacts.

Section ChoiceFacts.
Import Learning PyStr Console.
Context {U : PyStr.Unicode} {W : Type} `{Tutor W}.

Lemma bind_ok {St A B} (m : M St A) (k : A -> M St B) (s s' : St) (a : A) :
  m s = (Ok a, s') -> bind m k s = k a s'.
Proof. unfold bind. intros ->. reflexivity. Qed.

Lemma bind_raise {St A B} (m : M St A) (k : A -> M St B) (s s' : St) (e : exn) :
  m s = (Raise e, s') -> bind m k s = (Raise e, s').
Proof. unfold bind. intros ->. reflexivity. Qed.

Lemma extend_extend (a b : list event) (s : State W) :
  extend b (extend a s) = extend (a ++ b) s.
Proof. unfold extend. cbn [world trace self]. now rewrite app_assoc. Qed.

Lemma print_extend (text : string) (s : State W) :
  print text s = (Ok tt, extend [Print (text +:+ nl)] s).
Proof. reflexivity. Qed.

Lemma complete_keys (gap : dict) :
  complete gap = true ->
  exists name current required severity,
    dict_get gap "skill_name" = Some name
    /\ dict_get gap "current_level" = Some current
    /\ dict_get gap "required_level" = Some required
    /\ dict_get gap "gap_severity" = Some severity.
Proof.
  unfold complete, gap_keys. cbn [forallb].
  destruct (dict_get gap "skill_name") as [name|]; [|discriminate].
  destruct (dict_get gap "current_level") as [current|]; [|discriminate].
  destruct (dict_get gap "required_level") as [required|]; [|discriminate].
  destruct (dict_get gap "gap_severity") as [severity|]; [|discriminate].
  intros _. eexists _, _, _, _. repeat split.
Qed.

Lemma gap_line_complete (i : nat) (gap : dict) (s : State W) :
  complete gap = true -> exists line, gap_line i gap s = (Ok line, s).
Proof.
  intros (name & current & required & severity & Hn & Hc & Hr & Hs)%complete_keys.
  unfold gap_line, getitem, bind, need, ret. rewrite Hn, Hc, Hr, Hs.
  eexists. reflexivity.
Qed.

Lemma print_gaps_complete (gaps : list dict) (i : nat) (s : State W) :
  Forall (fun gap => complete gap = true) gaps ->
  exists tr, print_gaps i gaps s = (Ok tt, extend tr s) /\ forallb is_print tr = true.
Proof.
  intros Hall. revert i s. induction Hall as [|gap gaps Hgap _ IH]; intros i s.
  - exists []. split; [|reflexivity]. unfold extend. rewrite app_nil_r.
    destruct s; reflexivity.
  - destruct (gap_line_complete i gap s Hgap) as [line Hline].
    destruct (IH (S i) (extend [Print (line +:+ nl)] s)) as (tr & Hrest & Hprints).
    exists (Print (line +:+ nl) :: tr). split; [|exact Hprints].
    cbn [print_gaps]. rewrite (bind_ok _ _ _ _ _ Hline).
    rewrite (bind_ok _ _ _ _ _ (print_extend line s)).
    rewrite Hrest, extend_extend. reflexivity.
Qed.

Lemma prints_only (tr : list event) (p : event -> bool) :
  forallb is_print tr = true ->
  (forall text, p (Print text) = false) ->
  count p tr = 0.
Proof.
  intros Hprints Hp. induction tr as [|e tr IH]; [reflexivity|].
  cbn [forallb] in Hprints. apply andb_true_iff in Hprints as [He Htr].
  destruct e; try discriminate. cbn [count]. rewrite Hp, (IH Htr). reflexivity.
Qed.

Lemma gap_name_at_found (gaps : list dict) (idx : nat) (gap : dict) (name : string)
    (s : State W) :
  nth_error gaps idx = Some gap ->
  dict_get gap "skill_name" = Some name ->
  gap_name_at gaps idx s = (Ok name, s).
Proof.
  intros Hgap Hname. unfold gap_name_at, getitem, bind, need, ret.
  rewrite Hgap, Hname. reflexivity.
Qed.

Lemma input_cons (prompt line : string) (rest : list string) (s : State W) :
  input prompt (line :: rest) s = (Ok (line, rest), extend [Input prompt line] s).
Proof. reflexivity. Qed.

Lemma set_current_skill_focused (name : string) (s : State W) :
  set_current_skill name s
  = (Ok tt, {| world := world s; trace := trace s; self := focused name (self s) |}).
Proof. reflexivity. Qed.

Lemma asks_what_to_learn_listing
    (choice : string) (rest : list string) (s : State W) (first : dict) (more : list dict)
    (listing : list event) :
  report_skill_gaps (self s) = first :: more ->
  Forall (fun gap => complete gap = true) (first :: more) ->
  print_gaps 1 (first :: more)
    (extend [Print ((nl +:+ "Your skill gaps are:") +:+ nl)] s)
  = (Ok tt, extend listing (extend [Print ((nl +:+ "Your skill gaps are:") +:+ nl)] s)) ->
  exists (picked : dict) (name : string) (pre : list event),
    asks_what_to_learn (choice :: rest) s
    = (Ok rest,
       {| world := world s;
          trace := trace s
                   ++ (Print ((nl +:+ "Your skill gaps are:") +:+ nl)
                       :: listing
                       ++ [Input (nl +:+ "Which skill would you like to work on first? (enter number): ")
                                 choice])
                   ++ pre
                   ++ [Print ((nl +:+ "👉 Great! We'll focus on: " +:+ name +:+ nl) +:+ nl)];
          self := focused name (self s) |})
    /\ dict_get picked "skill_name" = Some name
    /\ forallb is_print pre = true
    /\ match parse_int choice with
       | Some n =>
           if ((1 <=? n) && (n <=? Z.of_nat (length (first :: more))))%Z
           then nth_error (first :: more) (Z.to_nat (n - 1)) = Some picked
           else picked = first
       | None => picked = first
       end.
Proof.
  intros Hgaps Hall Hlisting.
  assert (Hfirst : exists name0, dict_get first "skill_name" = Some name0).
  { inversion Hall as [|? ? Hc _]; subst.
    apply complete_keys in Hc as (name0 & _ & _ & _ & Hn & _). now exists name0. }
  destruct Hfirst as [name0 Hname0].
  set (prompt := nl +:+ "Which skill would you like to work on first? (enter number): ").
  set (invalid := Print ("Invalid choice, defaulting to the first gap." +:+ nl)).
  assert (Hpick : exists (picked : dict) (name : string) (pre : list event),
             dict_get picked "skill_name" = Some name
             /\ forallb is_print pre = true
             /\ (match parse_int choice with
                 | Some n =>
                     let idx := (n - 1)%Z in
                     if ((idx <? 0)%Z || (Z.of_nat (length (first :: more)) <=? idx)%Z)%bool
                     then
                       print "Invalid choice, defaulting to the first gap." ;;;
                       name <- gap_name_at (first :: more) 0 ;;
                       set_current_skill name
                     else
                       name <- gap_name_at (first :: more) (Z.to_nat idx) ;;
                       set_current_skill name
                 | None =>
                     print "Invalid choice, defaulting to the first gap." ;;;
                     name <- gap_name_at (first :: more) 0 ;;
                     set_current_skill name
                 end) (extend (Print ((nl +:+ "Your skill gaps are:") +:+ nl)
                               :: listing ++ [Input prompt choice]) s)
                = (Ok tt, {| world := world s;
                             trace := trace s ++ (Print ((nl +:+ "Your skill gaps are:") +:+ nl)
                                                  :: listing ++ [Input prompt choice]) ++ pre;
                             self := focused name (self s) |})
             /\ match parse_int choice with
                | Some n =>
                    if ((1 <=? n) && (n <=? Z.of_nat (length (first :: more))))%Z
                    then nth_error (first :: more) (Z.to_nat (n - 1)) = Some picked
                    else picked = first
                | None => picked = first
                end).
  { assert (Hfallback :
      forall st : State W,
        (print "Invalid choice, defaulting to the first gap." ;;;
         name <- gap_name_at (first :: more) 0 ;;
         set_current_skill name) st
        = (Ok tt, {| world := world st; trace := trace st ++ [invalid];
                     self := focused name0 (self st) |})).
    { intros st. rewrite (bind_ok _ _ _ _ _ (print_extend _ st)).
      rewrite (bind_ok _ _ _ _ _
                 (gap_name_at_found (first :: more) 0 first name0 _ eq_refl Hname0)).
      reflexivity. }
    destruct (parse_int choice) as [n|].
    - cbv zeta.
      destruct ((n - 1 <? 0)%Z || (Z.of_nat (length (first :: more)) <=? n - 1)%Z)%bool
        eqn:Hout.
      + exists first, name0, [invalid]. split; [exact Hname0|]. split; [reflexivity|].
        split; [rewrite Hfallback; unfold extend; cbn [world trace self];
                now rewrite <- app_assoc|].
        destruct ((1 <=? n) && (n <=? Z.of_nat (length (first :: more))))%Z eqn:Hin;
          [|reflexivity].
        exfalso. apply andb_true_iff in Hin as [H1 H2].
        apply orb_true_iff in Hout as [H3|H3]; lia.
      + apply orb_false_iff in Hout as [H1 H2].
        assert (Hlt : Z.to_nat (n - 1) < length (first :: more)) by lia.
        apply nth_error_Some in Hlt.
        destruct (nth_error (first :: more) (Z.to_nat (n - 1))) as [picked|] eqn:Hnth;
          [|congruence].
        assert (Hc : complete picked = true).
        { rewrite Forall_forall in Hall. apply Hall. apply list_elem_of_In.
          eapply nth_error_In, Hnth. }
        apply complete_keys in Hc as (name & _ & _ & _ & Hn & _).
        exists picked, name, []. split; [exact Hn|]. split; [reflexivity|].
        split.
        * rewrite (bind_ok _ _ _ _ _
                     (gap_name_at_found _ _ picked name _ Hnth Hn)).
          rewrite app_nil_r. reflexivity.
        * destruct ((1 <=? n) && (n <=? Z.of_nat (length (first :: more))))%Z eqn:Hin;
            [reflexivity|].
          exfalso. apply andb_false_iff in Hin as [H3|H3]; lia.
    - exists first, name0, [invalid]. split; [exact Hname0|]. split; [reflexivity|].
      split; [rewrite Hfallback; unfold extend; cbn [world trace self];
              now rewrite <- app_assoc | reflexivity]. }
  destruct Hpick as (picked & name & pre & Hname & Hpre & Hrun & Hrule).
  cbv zeta in Hrun.
  exists picked, name, pre.
  split; [|split; [exact Hname | split; [exact Hpre | exact Hrule]]].
  unfold asks_what_to_learn.
  rewrite (bind_ok get _ s s s eq_refl). cbv zeta. rewrite Hgaps.
  rewrite (bind_ok _ _ _ _ _ (print_extend _ s)).
  rewrite (bind_ok _ _ _ _ _ Hlisting), extend_extend.
  rewrite (bind_ok _ _ _ _ _ (input_cons prompt choice rest _)).
  rewrite extend_extend. cbn [fst snd app].
  rewrite (bind_ok _ _ _ _ _ Hrun).
  unfold bind, get, print, emit, modify, ret.
  cbn [world trace self focused current_skill fmt_opt].
  do 2 f_equal. subst prompt.
  repeat (rewrite <- app_assoc || rewrite <- app_comm_cons). reflexivity.
Qed.

(** [asks_what_to_learn] on a report whose gaps carry the four keys it
    prints: it reads one line; a number between 1 and the number of gaps
    picks the gap listed under that number, and every other line (not a
    number, zero, negative, too large) picks the first gap. Nothing is
    fetched and the model is not called. *)
Theorem asks_what_to_learn_choice
    (choice : string) (rest : list string) (s : State W) (first : dict) (more : list dict) :
  report_skill_gaps (self s) = first :: more ->
  Forall (fun gap => complete gap = true) (first :: more) ->
  exists (picked : dict) (name : string) (tr : list event),
    asks_what_to_learn (choice :: rest) s
    = (Ok rest, {| world := world s; trace := trace s ++ tr;
                   self := focused name (self s) |})
    /\ dict_get picked "skill_name" = Some name
    /\ count is_fetch tr = 0 /\ count is_llm_call tr = 0 /\ count is_input tr = 1
    /\ match parse_int choice with
       | Some n =>
           if ((1 <=? n) && (n <=? Z.of_nat (length (first :: more))))%Z
           then nth_error (first :: more) (Z.to_nat (n - 1)) = Some picked
           else picked = first
       | None => picked = first
       end.
Proof.
  intros Hgaps Hall.
  destruct (print_gaps_complete (first :: more) 1
              (extend [Print ((nl +:+ "Your skill gaps are:") +:+ nl)] s) Hall)
    as (listing & Hlisting & Hprints).
  destruct (asks_what_to_learn_listing choice rest s first more listing
              Hgaps Hall Hlisting)
    as (picked & name & pre & Hrun & Hname & Hpre & Hrule).
  exists picked, name. eexists. split; [exact Hrun|].
  split; [exact Hname|].
  rewrite !count_app. cbn [count is_fetch is_llm_call is_input].
  rewrite !count_app.
  rewrite !(prints_only listing), !(prints_only pre) by (assumption || reflexivity).
  cbn [count is_fetch is_llm_call is_input].
  repeat split; try lia. exact Hrule.
Qed.

End ChoiceFacts.

(** ** Numbers on the console: [str(i)] and [int(line)] *)
Section NumberFacts.
Import Learning PyStr Console.
Context {U : Unicode}.

Lemma digit_not_space (c : ascii) (d : nat) : Ascii.is_nat c = Some d -> isspace c = false.
Proof. destruct c as [[] [] [] [] [] [] [] []]; (discriminate || reflexivity). Qed.

Lemma rstrip_digits (s : string) : digits_only s = true -> rstrip s = s.
Proof.
  induction s as [|c s IH]; [reflexivity|].
  cbn [digits_only]. destruct (Ascii.is_nat c) as [d|] eqn:Hc; [|discriminate].
  intros Hs. rewrite rstrip_cons, (IH Hs), (digit_not_space c d Hc).
  destruct s; reflexivity.
Qed.

Lemma strip_digits (s : string) : digits_only s = true -> ascii_strip s = s.
Proof.
  intros Hs. unfold ascii_strip.
  assert (Hl : lstrip s = s).
  { destruct s as [|c s]; [reflexivity|]. cbn [digits_only] in Hs.
    destruct (Ascii.is_nat c) as [d|] eqn:Hc; [|discriminate].
    cbn [lstrip]. now rewrite (digit_not_space c d Hc). }
  rewrite Hl. now apply rstrip_digits.
Qed.

Lemma is_nat_pretty_char (d : N) :
  (d < 10)%N -> Ascii.is_nat (pretty_N_char d) = Some (N.to_nat d).
Proof.
  intros Hd.
  assert (d = 0 \/ d = 1 \/ d = 2 \/ d = 3 \/ d = 4 \/ d = 5 \/ d = 6 \/ d = 7
          \/ d = 8 \/ d = 9)%N as Hcases by lia.
  repeat (destruct Hcases as [->|Hcases]; [reflexivity|]). subst. reflexivity.
Qed.

Lemma digits_value_digit (acc : Z) (b : bool) (d : N) (s : string) :
  (d < 10)%N ->
  digits_value acc b (String (pretty_N_char d) s)
  = digits_value (10 * acc + Z.of_N d) true s.
Proof.
  intros Hd. cbn [digits_value]. rewrite (is_nat_pretty_char d Hd).
  now rewrite N_nat_Z.
Qed.

(** The decimal digits [pretty] writes in front of [s] are read back by
    [digits_value] as the number they spell. *)
Lemma pretty_go_value (x : N) :
  (0 < x)%N ->
  exists g : Z -> Z,
    g 0%Z = Z.of_N x
    /\ forall (s : string) (acc : Z) (b : bool),
         digits_value acc b (pretty_N_go x s) = digits_value (g acc) true s.
Proof.
  induction (N.lt_wf_0 x) as [x _ IH]. intros Hx.
  assert (Hd : (x `mod` 10 < 10)%N) by (apply N.mod_lt; lia).
  assert (Hsplit : x = (10 * (x `div` 10) + x `mod` 10)%N) by (apply N.div_mod; lia).
  destruct (N.eq_dec (x `div` 10)%N 0%N) as [Hq|Hq].
  - exists (fun acc => (10 * acc + Z.of_N (x `mod` 10))%Z). split; [lia|].
    intros s acc b. rewrite pretty_N_go_step by exact Hx.
    rewrite Hq, pretty_N_go_0. now apply digits_value_digit.
  - destruct (IH (x `div` 10)%N) as (g & Hg0 & Hg).
    { apply N.div_lt; lia. }
    { lia. }
    exists (fun acc => (10 * g acc + Z.of_N (x `mod` 10))%Z). split; [lia|].
    intros s acc b. rewrite pretty_N_go_step by exact Hx.
    rewrite Hg. now apply digits_value_digit.
Qed.

Lemma pretty_go_digits (x : N) (s : string) :
  digits_only s = true -> digits_only (pretty_N_go x s) = true.
Proof.
  revert s. induction (N.lt_wf_0 x) as [x _ IH]. intros s Hs.
  destruct (N.eq_dec x 0%N) as [->|Hx]; [now rewrite pretty_N_go_0|].
  rewrite pretty_N_go_step by lia. apply IH; [apply N.div_lt; lia|].
  cbn [digits_only]. rewrite is_nat_pretty_char by (apply N.mod_lt; lia). exact Hs.
Qed.

Lemma digit_is_ascii (c : ascii) (d : nat) :
  Ascii.is_nat c = Some d -> (nat_of_ascii c <? 128)%nat = true.
Proof. destruct c as [[] [] [] [] [] [] [] []]; (discriminate || reflexivity). Qed.

Lemma digits_ascii (s : string) : digits_only s = true -> isascii s = true.
Proof.
  induction s as [|c s IH]; [reflexivity|].
  cbn [digits_only isascii]. destruct (Ascii.is_nat c) as [d|] eqn:Hc; [|discriminate].
  intros Hs. now rewrite (digit_is_ascii c d Hc), (IH Hs).
Qed.

Lemma parse_int_digits (s : string) :
  digits_only s = true -> parse_int s = digits_value 0 false s.
Proof.
  intros Hs. unfold parse_int. rewrite (digits_ascii s Hs).
  unfold ascii_int. rewrite (strip_digits s Hs).
  destruct s as [|c r]; [reflexivity|].
  cbn [digits_only] in Hs. destruct (Ascii.is_nat c) eqn:Hc; [|discriminate].
  destruct c as [[] [] [] [] [] [] [] []]; (discriminate || reflexivity).
Qed.

(** [int(str(n)) == n] *)
Lemma parse_int_str_of_nat (n : nat) : parse_int (str_of_nat n) = Some (Z.of_nat n).
Proof.
  unfold str_of_nat, pretty, pretty_nat, pretty, pretty_N.
  destruct (decide (N.of_nat n = 0%N)) as [Hz|Hnz].
  - assert (n = 0) as -> by lia. reflexivity.
  - rewrite parse_int_digits by (now apply pretty_go_digits).
    destruct (pretty_go_value (N.of_nat n)) as (g & Hg0 & Hg); [lia|].
    rewrite Hg, Hg0. cbn [digits_value]. now rewrite nat_N_Z.
Qed.

End NumberFacts.

Section ListedNumber.
Import Learning PyStr Console.
Context {U : PyStr.Unicode} {W : Type} `{Tutor W}.

Lemma print_gaps_listing (gaps : list dict) (k : nat) (s : State W) :
  Forall (fun gap => complete gap = true) gaps ->
  exists listing,
    print_gaps k gaps s = (Ok tt, extend listing s)
    /\ forallb is_print listing = true
    /\ forall (i : nat) (gap : dict) (name : string),
         nth_error gaps i = Some gap ->
         dict_get gap "skill_name" = Some name ->
         exists tail,
           In (Print (str_of_nat (k + i) +:+ ". " +:+ name +:+ tail)) listing.
Proof.
  intros Hall. revert k s. induction Hall as [|gap0 gaps Hgap _ IH]; intros k s.
  - exists []. split; [|split; [reflexivity|]].
    + unfold extend. rewrite app_nil_r. destruct s; reflexivity.
    + intros [|i] gap name Hnth; discriminate.
  - pose proof (complete_keys gap0 Hgap)
      as (name0 & current & required & severity & Hn & Hc & Hr & Hs).
    set (line := str_of_nat k +:+ ". " +:+ name0 +:+ " "
                 +:+ "(You: " +:+ current +:+ " → Required: " +:+ required +:+ ", "
                 +:+ "Severity: " +:+ severity +:+ ")").
    assert (Hline : gap_line k gap0 s = (Ok line, s)).
    { unfold gap_line, getitem, bind, need, ret. rewrite Hn, Hc, Hr, Hs. reflexivity. }
    destruct (IH (S k) (extend [Print (line +:+ nl)] s)) as (tr & Hrest & Hprints & Hlines).
    exists (Print (line +:+ nl) :: tr). split; [|split; [exact Hprints|]].
    + cbn [print_gaps]. rewrite (bind_ok _ _ _ _ _ Hline).
      rewrite (bind_ok _ _ _ _ _ (print_extend line s)).
      rewrite Hrest, extend_extend. reflexivity.
    + intros [|i] gap name Hnth Hname.
      * injection Hnth as <-. rewrite Hn in Hname. injection Hname as <-.
        eexists. left. subst line. rewrite Nat.add_0_r.
        rewrite !append_assoc. reflexivity.
      * destruct (Hlines i gap name Hnth Hname) as [tail Hin].
        exists tail. right. now replace (k + S i) with (S k + i) by lia.
Qed.

(** The listing and the prompt of [asks_what_to_learn] agree: the gap at
    position [i] is printed under the number [i + 1], and typing that
    number makes its skill the focus. *)
Theorem typed_number_picks_listed_gap
    (i : nat) (gap : dict) (rest : list string) (s : State W) :
  Forall (fun g => complete g = true) (report_skill_gaps (self s)) ->
  nth_error (report_skill_gaps (self s)) i = Some gap ->
  exists (name : string) (tr : list event) (tail : string),
    asks_what_to_learn (str_of_nat (S i) :: rest) s
    = (Ok rest, {| world := world s; trace := trace s ++ tr;
                   self := focused name (self s) |})
    /\ dict_get gap "skill_name" = Some name
    /\ In (Print (str_of_nat (S i) +:+ ". " +:+ name +:+ tail)) tr.
Proof.
  intros Hall Hnth.
  destruct (report_skill_gaps (self s)) as [|first more] eqn:Hgaps;
    [destruct i; discriminate|].
  destruct (print_gaps_listing (first :: more) 1
              (extend [Print ((nl +:+ "Your skill gaps are:") +:+ nl)] s) Hall)
    as (listing & Hlisting & Hprints & Hlines).
  destruct (asks_what_to_learn_listing (str_of_nat (S i)) rest s first more listing
              Hgaps Hall Hlisting)
    as (picked & name & pre & Hrun & Hname & Hpre & Hrule).
  rewrite parse_int_str_of_nat in Hrule.
  assert (Hi : i < length (first :: more)) by (apply nth_error_Some; congruence).
  destruct ((1 <=? Z.of_nat (S i)) && (Z.of_nat (S i) <=? Z.of_nat (length (first :: more))))%Z
    eqn:Hin.
  2:{ exfalso. apply andb_false_iff in Hin as [Hin|Hin]; apply Z.leb_gt in Hin; lia. }
  replace (Z.to_nat (Z.of_nat (S i) - 1)) with i in Hrule by lia.
  assert (picked = gap) as -> by congruence.
  destruct (Hlines i gap name Hnth Hname) as [tail Hin'].
  exists name. eexists. exists tail. split; [exact Hrun|]. split; [exact Hname|].
  apply in_or_app. left. right. apply in_or_app. left. exact Hin'.
Qed.

End ListedNumber.

(** ** learning.py: a whole session *)
Section SessionFacts.
Import Learning PyStr Console.
Context {U : PyStr.Unicode} {W : Type} `{Tutor W}.

Lemma gap_line_analyzer (i : nat) (g : Analyzer.SkillGap.t) (s : State W) :
  gap_line i (Analyzer.gap_dict g) s = (Raise (KeyError "gap_severity"), s).
Proof. reflexivity. Qed.

(** A report whose gaps were built by [Analyzer.get_gaps] cannot be taught
    from: such a gap has no ['gap_severity'], and [run] raises [KeyError]
    while it lists the gaps, before the user is asked anything and before
    any call to the web or the model. The attributes stay as they were. *)
Theorem run_rejects_analyzer_gaps
    (g : Analyzer.SkillGap.t) (more : list dict) (inputs : list string) (s : State W) :
  report_skill_gaps (self s) = Analyzer.gap_dict g :: more ->
  run inputs s
  = (Raise (KeyError "gap_severity"),
     extend [Print ((nl +:+ "=== Personalized Learning Platform ===") +:+ nl);
             Print ((nl +:+ "Your skill gaps are:") +:+ nl)] s).
Proof.
  intros Hgaps. unfold run.
  rewrite (bind_ok _ _ _ _ _ (print_extend _ s)).
  rewrite (bind_ok get _ _ _ _ eq_refl).
  change (self (extend _ s)) with (self s). rewrite Hgaps.
  apply bind_raise. unfold asks_what_to_learn.
  rewrite (bind_ok get _ _ _ _ eq_refl). cbv zeta.
  change (self (extend _ s)) with (self s). rewrite Hgaps.
  rewrite (bind_ok _ _ _ _ _ (print_extend _ _)), extend_extend.
  apply bind_raise. cbn [print_gaps]. apply bind_raise.
  apply gap_line_analyzer.
Qed.

(** What a turn that returns has done. *)
Lemma turn_returns (user_input : string) (s s1 : State W) :
  turn user_input s = (Ok tt, s1) ->
  exists (query : string) (messages : list message) (printed : list event),
    trace s1 = trace s ++ HttpGet search_url query :: LLMCall messages :: printed
    /\ forallb is_print printed = true
    /\ turn_count (self s1) = S (turn_count (self s))
    /\ report_skill_gaps (self s1) = report_skill_gaps (self s)
    /\ current_skill (self s1) = current_skill (self s).
Proof.
  rewrite turn_unfold.
  pose proof (tutor_reply_unfold user_input false s) as Hreply.
  cbv zeta in Hreply. rewrite Hreply. clear Hreply.
  destruct (requests_get_text _ _ (world s)) as [r w1].
  match goal with
  | |- context [llm_content ?m w1] => destruct (llm_content m w1) as [[reply|e] w2]
  end; [|discriminate].
  cbv zeta. cbn [trace self turn_count world].
  intros [= <-]. cbn [trace self turn_count report_skill_gaps current_skill].
  eexists _, _, _. split.
  - rewrite <- app_assoc. cbn [app]. reflexivity.
  - split; [|repeat split; lia].
    destruct (_ =? 0)%nat; reflexivity.
Qed.

Lemma run_loop_at_exit (inputs : list string) (s : State W) :
  fst (run_loop inputs s) = Ok tt ->
  exists (pre : list string) (line : string) (post : list string),
    inputs = pre ++ line :: post
    /\ is_exit line = true
    /\ Forall (fun v => is_exit v = false) pre
    /\ turn_count (self (snd (run_loop inputs s))) = turn_count (self s) + length pre
    /\ current_skill (self (snd (run_loop inputs s))) = current_skill (self s)
    /\ count is_input (trace (snd (run_loop inputs s)))
       = count is_input (trace s) + length pre + 1
    /\ count is_llm_call (trace (snd (run_loop inputs s)))
       = count is_llm_call (trace s) + length pre
    /\ count is_fetch (trace (snd (run_loop inputs s)))
       = count is_fetch (trace s) + length pre.
Proof.
  revert s. induction inputs as [|user_input rest IH]; intros s.
  - cbn [run_loop]. unfold bind, emit, modify, raise. cbn [fst]. discriminate.
  - rewrite run_loop_cons. cbv zeta.
    set (s0 := {| world := world s;
                  trace := trace s ++ [Input "You: " user_input];
                  self := self s |}).
    fold (is_exit user_input). destruct (is_exit user_input) eqn:Hexit.
    + intros _. exists [], user_input, rest. rewrite print_extend.
      subst s0. unfold extend. cbn [fst snd trace self world app length].
      rewrite !count_app. cbn [count is_input is_llm_call is_fetch].
      repeat split; try lia; try assumption; constructor.
    + unfold bind. destruct (turn user_input s0) as [[[]|e] s1] eqn:Hturn;
        [|discriminate].
      intros Hok. destruct (IH s1 Hok)
        as (pre & line & post & -> & Hline & Hpre & Hcount & Hskill & Hin & Hllm & Hfetch).
      apply turn_returns in Hturn
        as (query & messages & printed & Htrace & Hprinted & Hturns & _ & Hcur).
      exists (user_input :: pre), line, post.
      rewrite Hcount, Hskill, Hin, Hllm, Hfetch, Htrace, Hturns, Hcur.
      subst s0. cbn [trace self length].
      rewrite !count_app. cbn [count is_input is_llm_call is_fetch].
      rewrite !(prints_only printed) by (assumption || reflexivity).
      repeat split; try lia; try assumption. now constructor.
Qed.

(** The tutor loop returns normally only when the user types [exit] (in
    any case, with blanks around): every line before it was a counted turn
    with one fetch and one model call, and nothing after it is read. A
    console that ends without [exit] never lets the loop return: it
    raises. *)
Theorem run_loop_returns_only_at_exit (inputs : list string) (s : State W) :
  (fst (run_loop inputs s) = Ok tt ->
   exists (pre : list string) (line : string) (post : list string),
     inputs = pre ++ line :: post
     /\ is_exit line = true
     /\ Forall (fun v => is_exit v = false) pre
     /\ turn_count (self (snd (run_loop inputs s))) = turn_count (self s) + length pre
     /\ count is_input (trace (snd (run_loop inputs s)))
        = count is_input (trace s) + length pre + 1
     /\ count is_llm_call (trace (snd (run_loop inputs s)))
        = count is_llm_call (trace s) + length pre)
  /\ (Forall (fun v => is_exit v = false) inputs ->
      exists e, fst (run_loop inputs s) = Raise e).
Proof.
  split.
  - intros Hok.
    destruct (run_loop_at_exit inputs s Hok)
      as (pre & line & post & Hsplit & Hline & Hpre & Hcount & _ & Hin & Hllm & _).
    exists pre, line, post. repeat split; assumption.
  - intros Hnone. destruct (fst (run_loop inputs s)) as [[]|e] eqn:Hout; [|now exists e].
    destruct (run_loop_at_exit inputs s Hout) as (pre & line & post & -> & Hline & _).
    apply Forall_app in Hnone as [_ Hnone]. inversion Hnone; congruence.
Qed.

End SessionFacts.

Section WholeSession.
Import Learning PyStr Console.
Context {U : PyStr.Unicode} {W : Type} `{Tutor W}.

Lemma tutor_reply_frame (user_input : string) (intro : bool) (s s' : State W)
    (r : res string) :
  tutor_reply user_input intro s = (r, s') ->
  self s' = self s
  /\ exists (query : string) (messages : list message),
       trace s' = trace s ++ [HttpGet search_url query; LLMCall messages].
Proof.
  pose proof (tutor_reply_unfold user_input intro s) as Hreply.
  cbv zeta in Hreply. rewrite Hreply. clear Hreply.
  destruct (requests_get_text _ _ (world s)) as [r1 w1].
  match goal with
  | |- context [llm_content ?m w1] => destruct (llm_content m w1) as [reply w2]
  end.
  intros [= _ <-]. split; [reflexivity|]. eexists _, _. reflexivity.
Qed.

(** A session of [run] that returns: the focus skill is the skill of one of
    the report's gaps; the introduction costs one fetch and one model call
    and is not counted as a turn; after it every console line up to [exit]
    is one counted turn. *)
Theorem run_session
    (choice : string) (inputs : list string) (s : State W) (first : dict) (more : list dict) :
  report_skill_gaps (self s) = first :: more ->
  Forall (fun gap => complete gap = true) (first :: more) ->
  fst (run (choice :: inputs) s) = Ok tt ->
  exists (picked : dict) (name : string) (pre : list string) (line : string)
         (post : list string),
    inputs = pre ++ line :: post
    /\ is_exit line = true
    /\ In picked (first :: more)
    /\ dict_get picked "skill_name" = Some name
    /\ current_skill (self (snd (run (choice :: inputs) s))) = Some name
    /\ turn_count (self (snd (run (choice :: inputs) s))) = turn_count (self s) + length pre
    /\ count is_llm_call (trace (snd (run (choice :: inputs) s)))
       = count is_llm_call (trace s) + length pre + 1
    /\ count is_fetch (trace (snd (run (choice :: inputs) s)))
       = count is_fetch (trace s) + length pre + 1.
Proof.
  intros Hgaps Hall.
  set (banner := Print ((nl +:+ "=== Personalized Learning Platform ===") +:+ nl)).
  set (s0 := extend [banner] s).
  assert (Hgaps0 : report_skill_gaps (self s0) = first :: more) by exact Hgaps.
  destruct (print_gaps_complete (first :: more) 1
              (extend [Print ((nl +:+ "Your skill gaps are:") +:+ nl)] s0) Hall)
    as (listing & Hlisting & Hprints).
  destruct (asks_what_to_learn_listing choice inputs s0 first more listing
              Hgaps0 Hall Hlisting)
    as (picked & name & said & Hasks & Hname & Hsaid & Hrule).
  assert (Hpicked : In picked (first :: more)).
  { destruct (parse_int choice) as [n|]; [|subst; now left].
    destruct (_ && _)%bool; [|subst; now left].
    eapply nth_error_In, Hrule. }
  match type of Hasks with _ = (_, ?st) => set (s1 := st) in * end.
  set (s2 := extend [Print (("Type 'exit' to stop learning at any time." +:+ nl) +:+ nl)] s1).
  assert (Hrun : run (choice :: inputs) s
                 = (intro <- tutor_reply "" true ;;
                    print ("Tutor: " +:+ intro +:+ " " +:+ nl) ;;;
                    run_loop inputs) s2).
  { unfold run.
    rewrite (bind_ok _ _ _ _ _ (print_extend _ s)).
    rewrite (bind_ok get _ _ _ _ eq_refl). fold banner. fold s0. rewrite Hgaps0.
    rewrite (bind_ok _ _ _ _ _ Hasks).
    now rewrite (bind_ok _ _ _ _ _ (print_extend _ s1)). }
  rewrite Hrun. clear Hrun. unfold bind.
  destruct (tutor_reply "" true s2) as [[intro|e] s3] eqn:Hintro; [|discriminate].
  apply tutor_reply_frame in Hintro as (Hself & query & messages & Htrace).
  rewrite print_extend.
  intros Hok.
  destruct (run_loop_at_exit inputs _ Hok)
    as (pre & line & post & Hsplit & Hline & _ & Hcount & Hskill & _ & Hllm & Hfetch).
  exists picked, name, pre, line, post.
  rewrite Hcount, Hskill, Hllm, Hfetch.
  unfold extend at 1 2 3 4. cbn [world trace self]. rewrite Hself, Htrace.
  subst s2 s1 s0. unfold extend.
  cbn [world trace self focused current_skill turn_count].
  rewrite !count_app. cbn [count is_llm_call is_fetch].
  rewrite !count_app. cbn [count is_llm_call is_fetch].
  rewrite !(prints_only listing), !(prints_only said) by (assumption || reflexivity).
  subst banner. cbn [is_llm_call is_fetch].
  repeat split; try assumption; lia.
Qed.

End WholeSession.

(** ** teacher.py: failures and repeated saves *)
Section TeacherEdges.
Import Teacher PyStr.
Context {U : PyStr.Unicode} {W : Type} `{Agent W}.

Ltac run_attrs :=
  unfold attr, bind, get, need, ret, raise;
  cbn [self world files user_name job_role job_proficiency teaching_skill
       teaching_proficiency chat_history chat_init session_timestamp
       with_world with_files fst snd].

Ltac run_serialize :=
  match goal with
  | |- context [serialize_chat ?h ?st] =>
      let entries := fresh "entries" in
      let w' := fresh "w'" in
      let Hs := fresh "Hs" in
      destruct (serialize_chat_ok h st) as (entries & w' & Hs);
      rewrite Hs; clear Hs
  end.

Ltac run_method :=
  unfold outside, last_message, append_chat, set_self, set_chat_init, set_files, modify;
  run_attrs.

Lemma attr_some {A} (name : string) (field : Self -> option A) (s : State W) (a : A) :
  field (self s) = Some a -> attr name field s = (Ok a, s).
Proof. intros Ha. unfold attr, bind, get, need, ret. now rewrite Ha. Qed.

(** A [Teacher] whose session attributes were never loaded (no
    [history.json] when it was created) cannot start: [init_chat] raises
    [AttributeError] before it asks the agent, and the whole state is as
    before. [save_history] raises too, and does so before it opens the
    file: the attributes and the files are untouched. *)
Theorem unloaded_teacher_cannot_start (s : State W) (said : string) :
  attributes_set (self s) = false ->
  (exists name, init_chat said s = (Raise (AttributeError name), s))
  /\ (exists name s',
        save_history s = (Raise (AttributeError name), s')
        /\ files s' = files s /\ self s' = self s).
Proof.
  intros Hunset. split.
  - destruct s as [w f [ts [un|] [jr|] [jp|] [tsk|] [tp|] [ch|] ci]];
      try discriminate;
      unfold init_chat, make_config; run_method; eexists; reflexivity.
  - rewrite save_history_unfold.
    pose proof (history_data_frame s) as [Hfiles Hself].
    destruct (history_data s) as [[data|e] s1] eqn:Hdata.
    + exfalso. revert Hdata.
      destruct s as [w f [ts [un|] [jr|] [jp|] [tsk|] [tp|] [ch|] ci]];
        try discriminate;
        unfold history_data; run_attrs; try discriminate;
        run_serialize; run_attrs; discriminate.
    + cbn [snd] in Hfiles, Hself.
      assert (Hname : exists name, e = AttributeError name).
      { revert Hdata.
        destruct s as [w f [ts [un|] [jr|] [jp|] [tsk|] [tp|] [ch|] ci]];
          try discriminate;
          unfold history_data; run_attrs;
          try (intros [= <- _]; eexists; reflexivity);
          run_serialize; run_attrs; intros [= <- _]; eexists; reflexivity. }
      destruct Hname as [name ->]. exists name, s1. repeat split; assumption.
Qed.

(** When the agent fails inside [init_chat], its error is raised, nothing
    is appended or saved, and [chat_init] keeps its value: a teacher that
    was not initialised still refuses to [chat]. *)
Theorem init_chat_failure_keeps_gate
    (s : State W) (first said : string) (config : Config.t)
    (history : list message) (e : exn) (w' : W) :
  make_config s = (Ok config, s) ->
  chat_history (self s) = Some history ->
  agent_invoke (history ++ [HumanMessage first]) config (world s) = (Raise e, w') ->
  chat_init (self s) = false ->
  init_chat first s = (Raise e, with_world w' s)
  /\ chat said (with_world w' s)
     = (Raise (RuntimeError "Init chat model first"), with_world w' s).
Proof.
  intros Hconfig Hhistory Hagent Hgate. split.
  - unfold init_chat. rewrite (bind_ok _ _ _ _ _ Hconfig).
    rewrite (bind_ok _ _ _ _ _ (attr_some "chat_history" chat_history s history Hhistory)).
    apply bind_raise. unfold outside. now rewrite Hagent.
  - unfold chat, bind, get. cbn [self with_world]. now rewrite Hgate.
Qed.

(** An agent that answers with no message at all: [init_chat], whether
    it is the first call or a later one, and [chat], once the gate is
    open, raise [IndexError] at [response["messages"][-1]], before anything
    is appended or saved and without touching [chat_init]. *)
Theorem empty_agent_reply_changes_nothing
    (s : State W) (first said : string) (config : Config.t)
    (history : list message) (w1 w2 : W) :
  make_config s = (Ok config, s) ->
  chat_history (self s) = Some history ->
  (agent_invoke (history ++ [HumanMessage first]) config (world s) = (Ok [], w1) ->
   init_chat first s = (Raise IndexError, with_world w1 s))
  /\ (chat_init (self s) = true ->
      agent_invoke [HumanMessage said] config (world s) = (Ok [], w2) ->
      chat said s = (Raise IndexError, with_world w2 s)).
Proof.
  intros Hconfig Hhistory. split.
  - intros Hinit. unfold init_chat. rewrite (bind_ok _ _ _ _ _ Hconfig).
    rewrite (bind_ok _ _ _ _ _ (attr_some "chat_history" chat_history s history Hhistory)).
    unfold bind at 1, outside. rewrite Hinit. reflexivity.
  - intros Hgate Hchat.
    unfold chat. rewrite (bind_ok get _ _ _ _ eq_refl). rewrite Hgate.
    rewrite (bind_ok _ _ _ _ _ Hconfig).
    unfold bind at 1, outside. rewrite Hchat. reflexivity.
Qed.




Lemma serialize_chat_stamps (msgs : list message) (s : State W) :
  exists (stamps : list string) (w' : W),
    length stamps = length msgs
    /\ serialize_chat msgs s
       = (Ok (zip_with (fun msg t => Json.JObj [ ("role", Json.JStr (role_of msg));
                                                 ("message", Json.JStr (content msg));
                                                 ("timestamp", Json.JStr t) ])
                       msgs stamps),
          with_world w' s).
Proof.
  revert s. induction msgs as [|msg rest IH]; intros s.
  - exists [], (world s). split; [reflexivity|]. destruct s; reflexivity.
  - cbn [serialize_chat]. unfold bind, outside, now.
    destruct (strftime_now (world s)) as [t w1].
    destruct (IH (with_world w1 s)) as (stamps & w2 & Hlen & Hrest).
    cbn [world files self with_world] in *. unfold with_world at 1 in Hrest.
    cbn [world files self] in Hrest. rewrite Hrest.
    exists (t :: stamps), w2. split; [cbn [length]; now rewrite Hlen|]. reflexivity.
Qed.

(** The record [save_history] writes: the session's start time under
    [timestamp] (not the time of the save), the five attributes, and under
    [chat_history] one entry per message of the chat history, in order,
    none dropped, each with its role, its text and one reading of the
    clock; the file holds this record and nothing else, whatever it held
    before. *)
Theorem save_history_lists_every_message
    (s : State W) (un jr tsk : string) (jp tp : Proficiency) (history : list message) :
  user_name (self s) = Some un ->
  job_role (self s) = Some jr ->
  job_proficiency (self s) = Some jp ->
  teaching_skill (self s) = Some tsk ->
  teaching_proficiency (self s) = Some tp ->
  chat_history (self s) = Some history ->
  exists (stamps : list string) (w' : W),
    length stamps = length history
    /\ save_history s
       = (Ok tt,
          with_files
            (<[history_json :=
                 Json.dumps
                   (Json.JObj
                      [ ("timestamp", Json.JStr (session_timestamp (self s)));
                        ("user_name", Json.JStr un);
                        ("job_role", Json.JStr jr);
                        ("job_proficiency", Json.JStr (value jp));
                        ("teaching_skill", Json.JStr tsk);
                        ("teaching_proficiency", Json.JStr (value tp));
                        ("chat_history",
                         Json.JArr
                           (zip_with
                              (fun msg t =>
                                 Json.JObj [ ("role", Json.JStr (role_of msg));
                                             ("message", Json.JStr (content msg));
                                             ("timestamp", Json.JStr t) ])
                              history stamps)) ]) 4]> (files s))
            (with_world w' s)).
Proof.
  intros Hun Hjr Hjp Htsk Htp Hch.
  destruct (serialize_chat_stamps history s) as (stamps & w' & Hlen & Hser).
  exists stamps, w'. split; [exact Hlen|].
  rewrite save_history_unfold.
  destruct s as [w f [ts un0 jr0 jp0 tsk0 tp0 ch0 ci]].
  cbn [self user_name job_role job_proficiency teaching_skill teaching_proficiency
       chat_history] in Hun, Hjr, Hjp, Htsk, Htp, Hch. subst.
  unfold history_data. run_attrs. rewrite Hser. run_attrs. reflexivity.
Qed.

End TeacherEdges.

(** ** teacher.py: the system prompt *)
Section PromptFacts.
Import Prompt PyStr.
Variable show : Proficiency -> string.

(** The system prompt never carries the teaching proficiency: [prompt]
    asks the config for the key [teachin_proficiency], which [init_chat]
    and [chat] never set, so the sentence always reads [at a None level]
    and the prompt is the same whatever level is being taught. *)
Theorem prompt_ignores_teaching_proficiency
    (state_messages : list message) (c : Teacher.Config.t) (p : Proficiency) :
  prompt show state_messages (with_teaching_proficiency p c)
  = prompt show state_messages c
  /\ exists before after,
       system_msg show c = before +:+ "at a None level. " +:+ after.
Proof.
  split; [reflexivity|].
  exists ("You are a skilled teacher. Address the user as "
          +:+ Teacher.Config.user_name c +:+ ". "
          +:+ "The user is a " +:+ Teacher.Config.job_role c +:+ " with "
          +:+ show (Teacher.Config.job_proficiency c) +:+ " proficiency. "
          +:+ "Your task is to teach " +:+ Teacher.Config.user_name c
          +:+ " the skill of " +:+ Teacher.Config.teaching_skill c +:+ " "),
         ("Explain concepts step by step, give clear examples, and adapt your style "
          +:+ "to match " +:+ Teacher.Config.user_name c
          +:+ "'s background and learning pace. "
          +:+ "Session timestamp is " +:+ Teacher.Config.session_timestamp c +:+ ". "
          +:+ "Your answers should be short. ").
  rewrite !append_assoc. reflexivity.
Qed.

End PromptFacts.

(** ** analyzer.py: normal forms and the CV's format *)
Section PipelineFacts.
Import Analyzer Pipeline PyStr.
Context {U : PyStr.Unicode} {W : Type} `{Completion W} `{Documents W}.

Lemma skill_dict_normal (skill : Skill.t) :
  ascii_skill skill = true -> normal (skill_dict skill).
Proof.
  intros Hskill. apply andb_true_iff in Hskill as [Hname Hlevel].
  repeat constructor; now apply normalised_twice.
Qed.

Lemma gap_dict_normal (gap : SkillGap.t) :
  ascii_gap gap = true -> normal (gap_dict gap).
Proof.
  intros Hgap. apply andb_true_iff in Hgap as [Hgap Hrequired].
  apply andb_true_iff in Hgap as [Hname Hcurrent].
  repeat constructor; now apply normalised_twice.
Qed.

(** When the service replies in ASCII text, every name and level that
    [get_requirements] returns is in normal form: trimming and lower-casing
    it again changes nothing, so the values can be compared by plain string
    equality. The same holds, separately, for [get_gaps]. *)
Theorem requirements_and_gaps_are_normal :
  (forall (description : string) (w w' : W) (reply : Requirements.t),
     invoke_Requirements [HumanMessage (requirements_prompt description)] w
     = (Ok reply, w') ->
     Forall (fun skill => ascii_skill skill = true) (Requirements.skills reply) ->
     exists skills_dicts : list dict,
       get_requirements description w = (Ok skills_dicts, w')
       /\ length skills_dicts = length (Requirements.skills reply)
       /\ Forall normal skills_dicts)
  /\ (forall (user_profile : UserProfile.t) (required_skills : list dict) (w w' : W)
             (reply : Gaps.t),
        invoke_Gaps [HumanMessage (gaps_prompt user_profile required_skills)] w
        = (Ok reply, w') ->
        Forall (fun gap => ascii_gap gap = true) (Gaps.skills reply) ->
        exists gaps_dicts : list dict,
          get_gaps user_profile required_skills w = (Ok gaps_dicts, w')
          /\ length gaps_dicts = length (Gaps.skills reply)
          /\ Forall normal gaps_dicts).
Proof.
  split.
  - intros description w w' reply Hreply Hascii.
    rewrite get_requirements_unfold, Hreply. eexists. split; [reflexivity|].
    split; [apply length_map|].
    induction Hascii as [|skill rest Hskill _ IH]; [constructor|].
    cbn [map]. constructor; [now apply skill_dict_normal | exact IH].
  - intros user_profile required_skills w w' reply Hreply Hascii.
    rewrite get_gaps_unfold, Hreply. eexists. split; [reflexivity|].
    split; [apply length_map|].
    induction Hascii as [|gap rest Hgap _ IH]; [constructor|].
    cbn [map]. constructor; [now apply gap_dict_normal | exact IH].
Qed.

Lemma extract_text_unsupported (file_ext : string) (source : cv) (read : M W string) (w : W) :
  file_ext <> ".txt" -> file_ext <> ".docx" -> file_ext <> ".pdf" ->
  extract_text file_ext source read w = (Raise ValueError, w).
Proof.
  intros Htxt Hdocx Hpdf. unfold extract_text.
  destruct (String.eqb_spec file_ext ".txt"); [contradiction|].
  destruct (String.eqb_spec file_ext ".docx"); [contradiction|].
  destruct (String.eqb_spec file_ext ".pdf"); [contradiction|].
  reflexivity.
Qed.

(** A CV whose extension, lower-cased, is none of [.txt], [.docx], [.pdf]
    is refused with [ValueError] before anything is read and before any
    call to the model, by [analyze_cv] and so by [analyze], which reads the
    CV first. The same holds for a file-like object that has no name. *)
Theorem unsupported_cv_is_refused
    (path job_description : string) (handle : nat) (w : W) :
  lower (suffix path) <> ".txt" ->
  lower (suffix path) <> ".docx" ->
  lower (suffix path) <> ".pdf" ->
  analyze_cv (CvPath path) w = (Raise ValueError, w)
  /\ analyze job_description (CvPath path) w = (Raise ValueError, w)
  /\ analyze_cv (CvFile (Some path) handle) w = (Raise ValueError, w)
  /\ analyze_cv (CvFile None handle) w = (Raise ValueError, w)
  /\ analyze_cv (CvFile (Some "") handle) w = (Raise ValueError, w).
Proof.
  intros Htxt Hdocx Hpdf.
  assert (Hcv : analyze_cv (CvPath path) w = (Raise ValueError, w)).
  { unfold analyze_cv. apply bind_raise. now apply extract_text_unsupported. }
  split; [exact Hcv|]. split.
  - unfold analyze. now apply bind_raise.
  - split; [|split; reflexivity].
    unfold analyze_cv. apply bind_raise.
    destruct path as [|c path].
    + reflexivity.
    + now apply extract_text_unsupported.
Qed.

End PipelineFacts.

(** ** main.py: the [/analyze] endpoint *)
Section EndpointFacts.
Import Endpoint PyStr.
Context {U : PyStr.Unicode} {W : Type} `{Analyzer.Completion W} `{Pipeline.Documents W} `{Host W}.

Lemma bind_keeps_disk {A B} (m : M (Server W) A) (k : A -> M (Server W) B) :
  (forall s, disk (snd (m s)) = disk s) ->
  (forall a s, disk (snd (k a s)) = disk s) ->
  forall s, disk (snd (bind m k s)) = disk s.
Proof.
  intros Hm Hk s. unfold bind. specialize (Hm s).
  destruct (m s) as [[a|e] s1]; cbn [snd] in *; [|exact Hm].
  now rewrite Hk.
Qed.

Lemma lift_keeps_disk {A} (call : M W A) (s : Server W) :
  disk (snd (lift call s)) = disk s.
Proof. unfold lift. destruct (call (inner s)); reflexivity. Qed.

Lemma content_of_keeps_disk {A} (path : string) (parse : string -> res A) (s : Server W) :
  disk (snd (content_of path parse s)) = disk s.
Proof. unfold content_of. destruct (disk s !! path); reflexivity. Qed.

Lemma analyze_cv_keeps_disk (path : string) (s : Server W) :
  disk (snd (Pipeline.analyze_cv (Pipeline.CvPath path) s)) = disk s.
Proof.
  unfold Pipeline.analyze_cv. apply bind_keeps_disk.
  - intros s0. unfold Pipeline.extract_text.
    destruct (String.eqb _ ".txt"); [apply content_of_keeps_disk|].
    destruct (String.eqb _ ".docx").
    { apply bind_keeps_disk; [intros; apply content_of_keeps_disk | reflexivity]. }
    destruct (String.eqb _ ".pdf"); [|reflexivity].
    apply bind_keeps_disk; [intros; apply content_of_keeps_disk | reflexivity].
  - intros raw_text s0. apply bind_keeps_disk; [intros; apply lift_keeps_disk | reflexivity].
Qed.

(** The analysis reads the disk and never writes it. *)
Lemma analyze_keeps_disk (job_description path : string) (s : Server W) :
  disk (snd (Pipeline.analyze job_description (Pipeline.CvPath path) s)) = disk s.
Proof.
  unfold Pipeline.analyze. apply bind_keeps_disk; [apply analyze_cv_keeps_disk|].
  intros user_profile s1. apply bind_keeps_disk.
  { intros s2. unfold Pipeline.clean_job_description.
    apply bind_keeps_disk; [intros; apply lift_keeps_disk | reflexivity]. }
  intros cleaned s2. cbv zeta. apply bind_keeps_disk.
  { intros s3. unfold Pipeline.get_job_details.
    apply bind_keeps_disk; [intros; apply lift_keeps_disk | reflexivity]. }
  intros job_details s3. apply bind_keeps_disk.
  { intros s4. unfold Analyzer.get_requirements.
    apply bind_keeps_disk; [intros; apply lift_keeps_disk | reflexivity]. }
  intros required_skills s4. apply bind_keeps_disk.
  { intros s5. unfold Analyzer.get_gaps.
    apply bind_keeps_disk; [intros; apply lift_keeps_disk | reflexivity]. }
  intros skill_gaps s5. unfold Analyzer.generate_report.
  apply bind_keeps_disk; [|reflexivity].
  intros s6. unfold Analyzer.now. cbn [Analyzer.strftime_now server_completion].
  destruct (Analyzer.strftime_now (inner s6)); reflexivity.
Qed.

(** Without a CV the endpoint answers 400 and does nothing else: no
    temporary file, no analysis. An empty [cv_text] counts as no CV. *)
Theorem analyze_endpoint_needs_a_cv
    (job_description : string) (cv_text : option string) (s : Server W) :
  cv_text = None \/ cv_text = Some "" ->
  analyze_endpoint job_description None cv_text s
  = (Ok (ErrorBody 400 "Either cv_file or cv_text must be provided"), s).
Proof. intros [-> | ->]; reflexivity. Qed.

Lemma staged_analysis (job_description suffix content : string) (s : Server W) :
  let tmp_path := fst (mkstemp suffix (inner s)) in
  let staged := {| inner := snd (mkstemp suffix (inner s));
                   disk := <[tmp_path := content]> (disk s) |} in
  disk s !! tmp_path = None ->
  (tmp_path <- named_temporary_file suffix content ;;
   try_finally
     (report <- Pipeline.analyze job_description (Pipeline.CvPath tmp_path) ;;
      ret (ReportBody report))
     (remove_if_exists tmp_path)) s
  = (match fst (Pipeline.analyze job_description (Pipeline.CvPath tmp_path) staged) with
     | Ok report => Ok (ReportBody report)
     | Raise e => Raise e
     end,
     {| inner := inner (snd (Pipeline.analyze job_description
                               (Pipeline.CvPath tmp_path) staged));
        disk := disk s |}).
Proof.
  intros tmp_path staged Hfresh.
  unfold bind at 1, named_temporary_file.
  destruct (mkstemp suffix (inner s)) as [path w1] eqn:Hname.
  cbn [fst snd] in *. subst tmp_path. fold staged.
  unfold try_finally, bind.
  pose proof (analyze_keeps_disk job_description path staged) as Hdisk.
  destruct (Pipeline.analyze job_description (Pipeline.CvPath path) staged)
    as [[report|e] s1]; cbn [fst snd ret] in *;
    unfold remove_if_exists; rewrite Hdisk; subst staged; cbn [disk];
    rewrite lookup_insert_eq, (delete_insert_id _ _ _ Hfresh); reflexivity.
Qed.

(** With a CV, the endpoint puts it in a fresh temporary file, runs the
    analysis on that file, and removes the file again whether the analysis
    returned or raised: the disk ends exactly as it was, and the answer is
    the report of the analysis, or its error. An uploaded file takes
    precedence over [cv_text]. *)
Theorem analyze_endpoint_restores_disk
    (job_description : string) (cv_file : option Upload) (cv_text : option string)
    (s : Server W) :
  let suffix := match cv_file with
                | Some upload => Pipeline.suffix (filename upload)
                | None => ".txt"
                end in
  let content := match cv_file, cv_text with
                 | Some upload, _ => body upload
                 | None, Some text => text
                 | None, None => ""
                 end in
  let tmp_path := fst (mkstemp suffix (inner s)) in
  let staged := {| inner := snd (mkstemp suffix (inner s));
                   disk := <[tmp_path := content]> (disk s) |} in
  (cv_file = None -> falsy cv_text = false) ->
  disk s !! tmp_path = None ->
  disk (snd (analyze_endpoint job_description cv_file cv_text s)) = disk s
  /\ fst (analyze_endpoint job_description cv_file cv_text s)
     = match fst (Pipeline.analyze job_description (Pipeline.CvPath tmp_path) staged) with
       | Ok report => Ok (ReportBody report)
       | Raise e => Raise e
       end.
Proof.
  intros suffix content tmp_path staged Hgiven Hfresh.
  unfold analyze_endpoint. destruct cv_file as [upload|].
  - cbv zeta. subst suffix content tmp_path staged.
    rewrite (staged_analysis job_description _ _ s Hfresh). split; reflexivity.
  - rewrite (Hgiven eq_refl). subst suffix content tmp_path staged.
    destruct cv_text as [text|]; [|discriminate (Hgiven eq_refl)].
    rewrite (staged_analysis job_description _ _ s Hfresh). split; reflexivity.
Qed.

(** An upload whose temporary copy has none of the three extensions (the
    file name had another extension, or none) is refused with [ValueError]
    before any model call, and its temporary copy is removed. *)
Theorem upload_with_unknown_extension
    (job_description : string) (upload : Upload) (cv_text : option string)
    (s : Server W) :
  let tmp_path := fst (mkstemp (Pipeline.suffix (filename upload)) (inner s)) in
  lower (Pipeline.suffix tmp_path) <> ".txt" ->
  lower (Pipeline.suffix tmp_path) <> ".docx" ->
  lower (Pipeline.suffix tmp_path) <> ".pdf" ->
  disk s !! tmp_path = None ->
  analyze_endpoint job_description (Some upload) cv_text s
  = (Raise ValueError,
     {| inner := snd (mkstemp (Pipeline.suffix (filename upload)) (inner s));
        disk := disk s |}).
Proof.
  intros tmp_path Htxt Hdocx Hpdf Hfresh.
  unfold analyze_endpoint. cbv zeta.
  rewrite (staged_analysis job_description _ _ s Hfresh). fold tmp_path.
  assert (Hcv : forall st : Server W,
             Pipeline.analyze job_description (Pipeline.CvPath tmp_path) st
             = (Raise ValueError, st)).
  { intros st. unfold Pipeline.analyze. apply bind_raise.
    unfold Pipeline.analyze_cv. apply bind_raise.
    now apply extract_text_unsupported. }
  rewrite Hcv. reflexivity.
Qed.

End EndpointFacts.

(** ** analyzer.py: the whole analysis *)
Section AnalysisFacts.
Import Analyzer Pipeline PyStr.
Context {U : PyStr.Unicode} {W : Type} `{Completion W} `{Documents W}.

(** A report that [analyze] returns comes from five model calls made in
    this order, each in the world the one before left: the CV profile, the
    cleaning of the job description, the job details, the requirements, the
    gaps; then the clock is read. The details and the requirements are
    asked about the cleaned description, not the one passed in, and the gaps
    prompt carries the requirements just returned. In the report the user's
    skills are the CV reply's, as replied; the required skills and the gaps
    are the trimmed and lower-cased replies; the job role is the one of the
    details call. *)
Theorem analyze_report_provenance
    (job_description : string) (user_cv : cv) (w w' : W) (report : Report.t) :
  analyze job_description user_cv w = (Ok report, w') ->
  exists (raw_text : string) (profile : CVProfile.t) (cleaned : CleanResponse.t)
         (details : JobDetailsResponse.t) (required : Requirements.t) (gaps : Gaps.t)
         (w0 w1 w2 w3 w4 w5 : W),
    invoke_CVProfile [HumanMessage (cv_prompt raw_text)] w0 = (Ok profile, w1)
    /\ invoke_CleanResponse [HumanMessage (clean_prompt job_description)] w1
       = (Ok cleaned, w2)
    /\ invoke_JobDetailsResponse
         [HumanMessage (details_prompt (CleanResponse.job_role cleaned)
                          (CleanResponse.cleaned_description cleaned))] w2
       = (Ok details, w3)
    /\ invoke_Requirements
         [HumanMessage (requirements_prompt (CleanResponse.cleaned_description cleaned))] w3
       = (Ok required, w4)
    /\ invoke_Gaps
         [HumanMessage
            (gaps_prompt
               {| UserProfile.user_name := CVProfile.user_name profile;
                  UserProfile.skills := map user_skill_dict (CVProfile.skills profile);
                  UserProfile.profile_summary := CVProfile.profile_summary profile |}
               (map skill_dict (Requirements.skills required)))] w4
       = (Ok gaps, w5)
    /\ strftime_now w5 = (Report.timestamp report, w')
    /\ Report.user_skills report = map user_skill_dict (CVProfile.skills profile)
    /\ Report.required_skills report = map skill_dict (Requirements.skills required)
    /\ Report.skill_gaps report = map gap_dict (Gaps.skills gaps)
    /\ Report.job_role report = JobDetailsResponse.job_role details.
Proof.
  unfold analyze, analyze_cv, clean_job_description, get_job_details.
  unfold bind, ret.
  match goal with
  | |- context [match ?extract w with _ => _ end] =>
      destruct (extract w) as [[raw_text|e] w0]; [|discriminate]
  end.
  destruct (invoke_CVProfile _ w0) as [[profile|e] w1] eqn:Hprofile; [|discriminate].
  destruct (invoke_CleanResponse _ w1) as [[cleaned|e] w2] eqn:Hcleaned; [|discriminate].
  cbn [fst snd].
  destruct (invoke_JobDetailsResponse _ w2) as [[details|e] w3] eqn:Hdetails;
    [|discriminate].
  rewrite get_requirements_unfold.
  destruct (invoke_Requirements _ w3) as [[required|e] w4] eqn:Hrequired; [|discriminate].
  rewrite get_gaps_unfold.
  destruct (invoke_Gaps _ w4) as [[gaps|e] w5] eqn:Hgaps; [|discriminate].
  unfold generate_report, bind, now, ret.
  destruct (strftime_now w5) as [t w6] eqn:Hclock.
  intros [= <- <-]. cbn [Report.timestamp Report.user_skills Report.required_skills
                          Report.skill_gaps Report.job_role UserProfile.skills
                          JobDetails.job_role].
  exists raw_text, profile, cleaned, details, required, gaps, w0, w1, w2, w3, w4, w5.
  repeat split; assumption.
Qed.

End AnalysisFacts.

(** ** Sample runs *)
Section SampleRuns.
Import Fixtures Samples PyStr.
#[local] Existing Instance plain_text.

Lemma asks_what_to_learn_choice_witness :
  let s := lesson two_gaps in
  Learning.current_skill
    (Learning.self (snd (Learning.asks_what_to_learn ["2"; "exit"] s)))
  = Some "sql".
Proof.
  intros s.
  pose proof (asks_what_to_learn_choice "2" ["exit"] s (severe_gap "docker")
                [severe_gap "sql"]) as Hthm.
  destruct Hthm as (picked & name & tr & Hrun & Hname & _ & _ & _ & Hpick);
    [reflexivity | repeat constructor |].
  vm_compute in Hpick. injection Hpick as <-.
  vm_compute in Hname. injection Hname as <-.
  rewrite Hrun. reflexivity.
Defined.

Lemma typed_number_picks_listed_gap_witness :
  let s := lesson two_gaps in
  fst (Learning.asks_what_to_learn [str_of_nat 2; "exit"] s) = Ok ["exit"]
  /\ exists tail,
       In (Learning.Print ("2. sql" +:+ tail))
          (Learning.trace (snd (Learning.asks_what_to_learn [str_of_nat 2; "exit"] s))).
Proof.
  intros s.
  pose proof (typed_number_picks_listed_gap 1 (severe_gap "sql") ["exit"] s) as Hthm.
  destruct Hthm as (name & tr & tail & Hrun & Hname & Hin);
    [repeat constructor | reflexivity |].
  vm_compute in Hname. injection Hname as <-.
  rewrite Hrun. split; [reflexivity|].
  exists tail. cbn [snd Learning.trace]. apply in_or_app. right. exact Hin.
Defined.

Lemma run_rejects_analyzer_gaps_witness :
  let s := lesson [Analyzer.gap_dict (gap " Docker " "None" "Expert")] in
  fst (Learning.run ["1"; "exit"] s) = Raise (KeyError "gap_severity")
  /\ Learning.self (snd (Learning.run ["1"; "exit"] s)) = Learning.self s.
Proof.
  intros s.
  pose proof (run_rejects_analyzer_gaps (gap " Docker " "None" "Expert") []
                ["1"; "exit"] s) as Hthm.
  rewrite (Hthm eq_refl). split; reflexivity.
Defined.

Lemma run_loop_returns_only_at_exit_witness :
  let inputs := ["Tell me more."; " EXIT "; "never read"] in
  let s := classroom up_desk 0 in
  exists (pre : list string) (line : string) (post : list string),
    inputs = pre ++ line :: post
    /\ Console.is_exit line = true
    /\ Learning.turn_count (Learning.self (snd (Learning.run_loop inputs s)))
       = length pre.
Proof.
  intros inputs s.
  pose proof (run_loop_returns_only_at_exit inputs s) as [Hthm _].
  destruct (Hthm eq_refl) as (pre & line & post & Hin & Hexit & _ & Hturns & _).
  exists pre, line, post. split; [exact Hin|]. split; [exact Hexit|exact Hturns].
Defined.

Lemma run_session_witness :
  let s := lesson two_gaps in
  let out := Learning.run ["2"; "What is a join?"; "exit"] s in
  exists (name : string) (pre : list string),
    Learning.current_skill (Learning.self (snd out)) = Some name
    /\ Learning.turn_count (Learning.self (snd out)) = length pre
    /\ Learning.count Console.is_llm_call (Learning.trace (snd out)) = length pre + 1.
Proof.
  intros s out.
  pose proof (run_session "2" ["What is a join?"; "exit"] s (severe_gap "docker")
                [severe_gap "sql"]) as Hthm.
  destruct Hthm
    as (picked & name & pre & line & post & _ & _ & _ & _ & Hskill & Hturns & Hllm & _);
    [reflexivity | repeat constructor | reflexivity |].
  exists name, pre. split; [exact Hskill|]. split; [exact Hturns|exact Hllm].
Defined.

Lemma unloaded_teacher_cannot_start_witness :
  (exists name,
     Teacher.init_chat Teacher.default_message unloaded
     = (Raise (AttributeError name), unloaded))
  /\ exists name, fst (Teacher.save_history unloaded) = Raise (AttributeError name).
Proof.
  pose proof (unloaded_teacher_cannot_start unloaded Teacher.default_message) as Hthm.
  destruct (Hthm eq_refl) as [Hinit (name & s' & Hsave & _)].
  split; [exact Hinit|]. exists name. now rewrite Hsave.
Defined.

Lemma init_chat_failure_keeps_gate_witness :
  let s := session false false ∅ in
  Teacher.init_chat Teacher.default_message s = (Raise unavailable, s)
  /\ Teacher.chat "What is a container?" s
     = (Raise (RuntimeError "Init chat model first"), s).
Proof.
  intros s.
  pose proof (init_chat_failure_keeps_gate s Teacher.default_message
                "What is a container?" pupil_config
                [HumanMessage "Hi"; AIMessage "Hello Ada."]
                unavailable (Teacher.world s)) as Hthm.
  destruct Hthm as [Hinit Hchat];
    [reflexivity | reflexivity | reflexivity | reflexivity |].
  split; [exact Hinit | exact Hchat].
Defined.

Lemma empty_agent_reply_changes_nothing_witness :
  let s := silent_session false in
  let s' := silent_session true in
  fst (Teacher.init_chat Teacher.default_message s) = Raise IndexError
  /\ Teacher.self (snd (Teacher.init_chat Teacher.default_message s)) = pupil false
  /\ Teacher.files (snd (Teacher.init_chat Teacher.default_message s)) = ∅
  /\ fst (Teacher.chat "What is a container?" s') = Raise IndexError
  /\ Teacher.self (snd (Teacher.chat "What is a container?" s')) = pupil true
  /\ Teacher.files (snd (Teacher.chat "What is a container?" s')) = ∅.
Proof.
  intros s s'.
  pose proof (empty_agent_reply_changes_nothing s Teacher.default_message
                "What is a container?" pupil_config
                [HumanMessage "Hi"; AIMessage "Hello Ada."]
                {| asked := 1 |} {| asked := 1 |}) as Hfirst.
  pose proof (empty_agent_reply_changes_nothing s' Teacher.default_message
                "What is a container?" pupil_config
                [HumanMessage "Hi"; AIMessage "Hello Ada."]
                {| asked := 1 |} {| asked := 1 |}) as Hlater.
  destruct Hfirst as [Hinit _]; [reflexivity | reflexivity |].
  destruct Hlater as [_ Hchat]; [reflexivity | reflexivity |].
  rewrite (Hinit eq_refl), (Hchat eq_refl eq_refl). repeat split.
Defined.


Lemma requirements_and_gaps_are_normal_witness :
  Forall Pipeline.normal (skill "docker" "expert" :: nil)
  /\ Forall Pipeline.normal
       ([ ("skill_name", "docker"); ("current_level", "none");
          ("required_level", "expert") ] :: nil).
Proof.
  pose proof (requirements_and_gaps_are_normal (W := Scripted)) as [Hreq Hgaps].
  edestruct (Hreq "Builds services with Docker." studio)
    as (skills_dicts & Hrun & _ & Hnormal);
    [vm_compute; reflexivity | repeat constructor |].
  edestruct (Hgaps (profile [skill "python" "advanced"]) [skill "docker" "expert"] studio)
    as (gaps_dicts & Hrun' & _ & Hnormal');
    [vm_compute; reflexivity | repeat constructor |].
  vm_compute in Hrun. injection Hrun as <-.
  vm_compute in Hrun'. injection Hrun' as <-.
  split; [exact Hnormal | exact Hnormal'].
Defined.

Lemma unsupported_cv_is_refused_witness :
  Pipeline.analyze "Builds services with Docker." (Pipeline.CvPath "/home/ada/cv.rtf") studio
  = (Raise ValueError, studio)
  /\ Pipeline.analyze_cv (Pipeline.CvFile (Some "cv.rtf") 3) studio
     = (Raise ValueError, studio).
Proof.
  pose proof (unsupported_cv_is_refused "/home/ada/cv.rtf"
                "Builds services with Docker." 3 studio) as Hthm.
  destruct Hthm as (_ & Hanalyze & _ & _ & _);
    [vm_compute; discriminate | vm_compute; discriminate | vm_compute; discriminate |].
  split; [exact Hanalyze | reflexivity].
Defined.

Lemma analyze_endpoint_needs_a_cv_witness :
  Endpoint.analyze_endpoint "Builds services with Docker." None (Some "") (server ∅)
  = (Ok (Endpoint.ErrorBody 400 "Either cv_file or cv_text must be provided"), server ∅).
Proof.
  pose proof (analyze_endpoint_needs_a_cv "Builds services with Docker." (Some "")
                (server ∅)) as Hthm.
  apply Hthm. right. reflexivity.
Defined.

Lemma analyze_endpoint_restores_disk_witness :
  let out := Endpoint.analyze_endpoint "Builds services with Docker." None
               (Some "Ada Obi. Python, advanced.") (server ∅) in
  Endpoint.disk (snd out) = ∅
  /\ exists report,
       fst out = Ok (Endpoint.ReportBody report)
       /\ Analyzer.Report.skill_gaps report
          = [ [ ("skill_name", "docker"); ("current_level", "none");
                ("required_level", "expert") ] ].
Proof.
  intros out.
  pose proof (analyze_endpoint_restores_disk "Builds services with Docker." None
                (Some "Ada Obi. Python, advanced.") (server ∅)) as Hthm.
  destruct Hthm as [Hdisk Hres]; [intros _; reflexivity | reflexivity |].
  split; [exact Hdisk|].
  subst out. rewrite Hres. eexists. split; reflexivity.
Defined.

Lemma upload_with_unknown_extension_witness :
  let upload := {| Endpoint.filename := "cv.rtf"; Endpoint.body := "{\rtf1 Ada Obi}" |} in
  Endpoint.analyze_endpoint "Builds services with Docker." (Some upload) None (server ∅)
  = (Raise ValueError, server ∅).
Proof.
  intros upload.
  pose proof (upload_with_unknown_extension "Builds services with Docker." upload None
                (server ∅)) as Hthm.
  apply Hthm; [vm_compute; discriminate | vm_compute; discriminate
              | vm_compute; discriminate | reflexivity].
Defined.

Lemma analyze_report_provenance_witness :
  let out := Pipeline.analyze "We build services. Apply now!"
               (Pipeline.CvFile (Some "ada.TXT") 3) studio in
  exists (report : Analyzer.Report.t) (cv_reply : Pipeline.CVProfile.t)
         (gaps_reply : Analyzer.Gaps.t),
    fst out = Ok report
    /\ Analyzer.Report.user_skills report
       = map Pipeline.user_skill_dict (Pipeline.CVProfile.skills cv_reply)
    /\ Analyzer.Report.skill_gaps report
       = map Analyzer.gap_dict (Analyzer.Gaps.skills gaps_reply).
Proof.
  intros out.
  eassert (Hrun : Pipeline.analyze "We build services. Apply now!"
                    (Pipeline.CvFile (Some "ada.TXT") 3) studio = (Ok _, _))
    by (vm_compute; reflexivity).
  pose proof (analyze_report_provenance _ _ _ _ _ Hrun) as Hthm.
  destruct Hthm
    as (raw & cv_reply & cleaned & details & required & gaps_reply
        & w0 & w1 & w2 & w3 & w4 & w5 & _ & _ & _ & _ & _ & _ & Hskills & _ & Hgaps & _).
  eexists _, cv_reply, gaps_reply. subst out. rewrite Hrun.
  split; [reflexivity|]. split; [exact Hskills | exact Hgaps].
Defined.

Lemma save_history_lists_every_message_witness :
  let s := session true true {[ Teacher.history_json := "{}" ]} in
  exists stamps : list string,
    length stamps = 2
    /\ fst (Teacher.save_history s) = Ok tt
    /\ Teacher.stored (snd (Teacher.save_history s)) <> Some "{}".
Proof.
  intros s.
  pose proof (save_history_lists_every_message s "Ada" "Backend Engineer" "docker"
                Intermediate Advanced [HumanMessage "Hi"; AIMessage "Hello Ada."]) as Hthm.
  destruct Hthm as (stamps & w' & Hlen & Hsave);
    [reflexivity | reflexivity | reflexivity | reflexivity | reflexivity | reflexivity |].
  exists stamps. split; [exact Hlen|]. split; [reflexivity|].
  vm_compute. discriminate.
Defined.

End SampleRuns.
